(** * Pump energy analysis: the calculation core of [apppumps.py]

    Shallow embedding of the three engineering functions of the application
    ([calcular_perda_carga], [calcular_analise_energetica], [gerar_sugestoes]),
    of the fluid table [FLUIDOS] they read and of the calculations of the
    script that calls them.

    Numbers: Python's [float] is idealised as a real number ([R]); rounding,
    overflow and NaN are outside the model.  The literals of the source are
    read as the decimal fractions they spell.  Exceptions are explicit: every
    operation that can raise in Python ([FLUIDOS[k]], [/], [**],
    [math.log10]) returns in the error monad [resultado]. *)

From Stdlib Require Import Reals Lra Sorted.
From stdpp Require Import base list strings gmap.

Open Scope R_scope.

(** ** Exceptions and the error monad *)

(** The exceptions the core can raise: a missing dictionary key, a float
    division by zero, a [math] domain error and a float power out of
    range. *)
Inductive excecao : Type :=
  | KeyError (chave : string)
  | ZeroDivisionError
  | ValueError
  | OverflowError.

Inductive resultado (A : Type) : Type :=
  | Retorna (a : A)
  | Levanta (e : excecao).
Arguments Retorna {A} a.
Arguments Levanta {A} e.

Definition ligar {A B : Type} (m : resultado A) (k : A -> resultado B) : resultado B :=
  match m with
  | Retorna a => k a
  | Levanta e => Levanta e
  end.

Notation "x <-- m ;; k" := (ligar m (fun x => k))
  (at level 100, m at next level, right associativity).

(** ** Fluid table (source lines 10-15) *)

(** An entry of the table: the inner dictionary with its two keys ["rho"]
    (density, kg/m3) and ["nu"] (kinematic viscosity, m2/s). *)
Record Fluido : Type := mkFluido { rho : R; nu : R }.

Definition FLUIDOS : gmap string Fluido :=
  <[ "Água a 20°C"%string := mkFluido 998.2 1.004e-6 ]>
  (<[ "Etanol a 20°C"%string := mkFluido 789.0 1.51e-6 ]>
  (<[ "Glicerina a 20°C"%string := mkFluido 1261.0 1.49e-3 ]>
  (<[ "Óleo Leve (genérico)"%string := mkFluido 880.0 1.5e-5 ]> ∅))).

(** [tabela[chave]]: subscripting a dict raises [KeyError] on a missing key. *)
Definition subscrito (tabela : gmap string Fluido) (chave : string) : resultado Fluido :=
  match tabela !! chave with
  | Some f => Retorna f
  | None => Levanta (KeyError chave)
  end.

(** A second table, with two fluids of equal density and different
    viscosity: the functions below take the table they read as an argument,
    [FLUIDOS] being the one the module defines. *)
Definition tabela_mesma_densidade : gmap string Fluido :=
  <[ "A"%string := mkFluido 1000 1e-6 ]> (<[ "B"%string := mkFluido 1000 2e-3 ]> ∅).

(** ** Python's partial float operations *)

(** [a / b] on floats raises [ZeroDivisionError] when the divisor is zero. *)
Definition py_div (a b : R) : resultado R :=
  if Req_dec_T b 0 then Levanta ZeroDivisionError else Retorna (a / b).

(** Decimal logarithm as a real function. *)
Definition log10 (x : R) : R := ln x / ln 10.

(** [math.log10 x] raises [ValueError] (math domain error) unless [x > 0]. *)
Definition py_log10 (x : R) : resultado R :=
  if Rlt_dec 0 x then Retorna (log10 x) else Levanta ValueError.

(** [x ** y] on floats, for a positive base [x] (the only use in the source
    is [reynolds**0.9] under the guard [reynolds > 4000]). *)
Definition py_pow (x y : R) : R := Rpower x y.

(** The largest finite float, [sys.float_info.max] = (2 - 2^-52) * 2^1023. *)
Definition DBL_MAX : R := (2 - / 2 ^ 52) * 2 ^ 1023.

(** [x ** 2] on floats raises [OverflowError] when the square is out of
    the range of the floats. *)
Definition py_quadrado (x : R) : resultado R :=
  if Rgt_dec (x ^ 2) DBL_MAX then Levanta OverflowError else Retorna (x ^ 2).

(** ** Head loss (source lines 19-51) *)

(** Line 36: [reynolds = (velocidade * diametro_m) / nu if nu > 0 else 0]. *)
Definition numero_reynolds (velocidade diametro_m nu : R) : resultado R :=
  if Rgt_dec nu 0 then py_div (velocidade * diametro_m) nu else Retorna 0.

(** Lines 40-43: the friction factor, by flow regime. *)
Definition fator_atrito (rugosidade_m diametro_m reynolds : R) : resultado R :=
  if Rgt_dec reynolds 4000 then
    a <-- py_div rugosidade_m (3.7 * diametro_m) ;;
    b <-- py_div 5.74 (py_pow reynolds 0.9) ;;
    l <-- py_log10 (a + b) ;;
    py_div 0.25 (l ^ 2)
  else
    if Rgt_dec reynolds 0 then py_div 64 reynolds else Retorna 0.

Definition calcular_perda_carga (fluidos : gmap string Fluido)
    (vazao_m3h diametro_mm comprimento_m rugosidade_mm k_total : R)
    (fluido_selecionado : string) : resultado (R * R) :=
  (* Conversoes *)
  let vazao_m3s := vazao_m3h / 3600 in
  let diametro_m := diametro_mm / 1000 in
  let rugosidade_m := rugosidade_mm / 1000 in
  (* Propriedades do fluido *)
  f_rho <-- subscrito fluidos fluido_selecionado ;;
  let rho := rho f_rho in
  f_nu <-- subscrito fluidos fluido_selecionado ;;
  let nu := nu f_nu in
  (* Calculos intermediarios *)
  diametro_m_2 <-- py_quadrado diametro_m ;;
  let area := (PI * diametro_m_2) / 4 in
  if Req_dec_T area 0 then Retorna (0, 0) else
  velocidade <-- py_div vazao_m3s area ;;
  reynolds <-- numero_reynolds velocidade diametro_m nu ;;
  fator <-- fator_atrito rugosidade_m diametro_m reynolds ;;
  (* Perda de carga principal *)
  razao <-- py_div comprimento_m diametro_m ;;
  velocidade_2 <-- py_quadrado velocidade ;;
  let perda_carga_principal := fator * razao * (velocidade_2 / (2 * 9.81)) in
  (* Perda de carga localizada *)
  velocidade_2 <-- py_quadrado velocidade ;;
  let perda_carga_localizada := k_total * (velocidade_2 / (2 * 9.81)) in
  Retorna (perda_carga_principal, perda_carga_localizada).

(** ** Energy and cost (source lines 53-78) *)

(** The dictionary the function returns, one field per key. *)
Record Analise : Type := mkAnalise {
  potencia_hidraulica_kW : R;
  potencia_eixo_kW : R;
  potencia_eletrica_kW : R;
  consumo_mensal_kWh : R;
  custo_mensal : R;
  custo_anual : R
}.

Definition calcular_analise_energetica (fluidos : gmap string Fluido)
    (vazao_m3h h_man eficiencia_bomba eficiencia_motor horas_dia custo_kwh : R)
    (fluido_selecionado : string) : resultado Analise :=
  f_rho <-- subscrito fluidos fluido_selecionado ;;
  let rho := rho f_rho in
  let g := 9.81 in
  let vazao_m3s := vazao_m3h / 3600 in
  let potencia_hidraulica_W := vazao_m3s * rho * g * h_man in
  potencia_eixo_W <--
    (if Rgt_dec eficiencia_bomba 0
     then py_div potencia_hidraulica_W eficiencia_bomba else Retorna 0) ;;
  potencia_eletrica_W <--
    (if Rgt_dec eficiencia_motor 0
     then py_div potencia_eixo_W eficiencia_motor else Retorna 0) ;;
  let potencia_eletrica_kW := potencia_eletrica_W / 1000 in
  let consumo_diario_kWh := potencia_eletrica_kW * horas_dia in
  let consumo_mensal_kWh := consumo_diario_kWh * 30 in
  let custo_mensal := consumo_mensal_kWh * custo_kwh in
  let custo_anual := custo_mensal * 12 in
  Retorna {|
    potencia_hidraulica_kW := potencia_hidraulica_W / 1000;
    potencia_eixo_kW := potencia_eixo_W / 1000;
    potencia_eletrica_kW := potencia_eletrica_kW;
    consumo_mensal_kWh := consumo_mensal_kWh;
    custo_mensal := custo_mensal;
    custo_anual := custo_anual
  |}.

(** ** Suggestions (source lines 80-90) *)

Definition MSG_BOMBA : string :=
  "Eficiência da bomba abaixo de 60%. Considere a substituição por um modelo mais moderno e eficiente.".
Definition MSG_MOTOR : string :=
  "Eficiência do motor abaixo de 85%. Motores de alto rendimento (IR3+) podem gerar grande economia.".
Definition MSG_INVERSOR : string :=
  "Se a vazão for variável, um inversor de frequência pode reduzir drasticamente o consumo de energia.".
Definition MSG_MANUTENCAO : string :=
  "Realize manutenções preventivas, verifique vazamentos e o estado dos rotores e selos da bomba.".

(** [lista.append(x)]: the list grows at its end. *)
Definition append {A : Type} (lista : list A) (x : A) : list A := lista ++ [x].

Definition gerar_sugestoes (eficiencia_bomba eficiencia_motor custo_anual : R)
    : list string :=
  let sugestoes := [] in
  let sugestoes :=
    if Rlt_dec eficiencia_bomba 0.6 then append sugestoes MSG_BOMBA else sugestoes in
  let sugestoes :=
    if Rlt_dec eficiencia_motor 0.85 then append sugestoes MSG_MOTOR else sugestoes in
  let sugestoes :=
    if Rgt_dec custo_anual 5000 then append sugestoes MSG_INVERSOR else sugestoes in
  let sugestoes := append sugestoes MSG_MANUTENCAO in
  sugestoes.

(** ** The friction factor as the specification words it *)

(** The Swamee-Jain expression of the specification,
    f = 0.25 / [log10(eps/(3.7 D) + 5.74/Re^0.9)]^2, as a real expression
    with no notion of failure; [argumento_log] is the argument of its
    logarithm. *)
Definition argumento_log (eps D Re : R) : R :=
  eps / (3.7 * D) + 5.74 / Rpower Re 0.9.

Definition swamee_jain (eps D Re : R) : R :=
  0.25 / (log10 (argumento_log eps D Re)) ^ 2.

(** ** The application script (source lines 140-203) *)

(** The values the input widgets return in one run of the script.  The
    manometric head typed by the user and the five pipe inputs belong to the
    two branches of the test on [tipo_calculo_h]; the efficiencies are the
    integers of the two sliders, in percent. *)
Record Entradas : Type := mkEntradas {
  fluido_selecionado : string;
  vazao : R;
  tipo_calculo_h : string;
  h_man_informada : R;
  h_geometrica : R;
  comp_tub : R;
  diam_tub : R;
  rug_tub : R;
  k_total_acessorios : R;
  rend_bomba : Z;
  rend_motor : Z;
  horas_por_dia : R;
  tarifa_energia : R
}.

(** What the script computes and then displays. *)
Record Painel : Type := mkPainel {
  h_man_total : R;
  resultados : Analise;
  custos_range : list R;
  sugestoes : list string
}.

(** A list comprehension whose body can raise: the elements are computed
    in order and the first exception ends the evaluation. *)
Fixpoint compreensao {A B : Type} (g : A -> resultado B) (l : list A)
    : resultado (list B) :=
  match l with
  | [] => Retorna []
  | x :: l' =>
      y <-- g x ;;
      ys <-- compreensao g l' ;;
      Retorna (y :: ys)
  end.

(** [range(1, 25)]. *)
Definition horas_range : list Z := seqZ 1 24.

(** Lines 150-160 and 176-178: the manometric head, typed in or computed
    from the pipe. *)
Definition calcular_h_man_total (en : Entradas) : resultado R :=
  let h_man_total := 0 in
  let h_man_total :=
    if String.eqb (tipo_calculo_h en) "Informar manualmente"
    then h_man_informada en else h_man_total in
  if String.eqb (tipo_calculo_h en) "Calcular a partir da tubulação" then
    perdas <-- calcular_perda_carga FLUIDOS (vazao en) (diam_tub en)
                 (comp_tub en) (rug_tub en) (k_total_acessorios en)
                 (fluido_selecionado en) ;;
    let (pc_p, pc_l) := perdas : R * R in
    Retorna (h_geometrica en + pc_p + pc_l)
  else Retorna h_man_total.

(** Lines 176-203, without the rendering. *)
Definition script (en : Entradas) : resultado Painel :=
  h_man_total <-- calcular_h_man_total en ;;
  resultados <-- calcular_analise_energetica FLUIDOS (vazao en) h_man_total
                   (IZR (rend_bomba en) / 100) (IZR (rend_motor en) / 100)
                   (horas_por_dia en) (tarifa_energia en)
                   (fluido_selecionado en) ;;
  custos_range <--
    compreensao
      (fun h : Z =>
         r <-- calcular_analise_energetica FLUIDOS (vazao en) h_man_total
                 (IZR (rend_bomba en) / 100) (IZR (rend_motor en) / 100)
                 (IZR h) (tarifa_energia en) (fluido_selecionado en) ;;
         Retorna (custo_anual r))
      horas_range ;;
  let sugestoes :=
    gerar_sugestoes (IZR (rend_bomba en) / 100) (IZR (rend_motor en) / 100)
      (custo_anual resultados) in
  Retorna {|
    h_man_total := h_man_total;
    resultados := resultados;
    custos_range := custos_range;
    sugestoes := sugestoes
  |}.

(** The ranges the widgets enforce (their [min_value] and [max_value]
    arguments, the options of the select box and of the radio). *)
Record entradas_dos_widgets (en : Entradas) : Prop := {
  w_fluido : is_Some (FLUIDOS !! fluido_selecionado en);
  w_vazao : 0.1 <= vazao en;
  w_tipo : tipo_calculo_h en = "Informar manualmente"%string \/
           tipo_calculo_h en = "Calcular a partir da tubulação"%string;
  w_h_man : 1 <= h_man_informada en;
  w_h_geometrica : 0 <= h_geometrica en;
  w_comp_tub : 1 <= comp_tub en;
  w_diam_tub : 1 <= diam_tub en;
  w_rug_tub : 0.001 <= rug_tub en;
  w_k_total : 0 <= k_total_acessorios en;
  w_rend_bomba : (10 <= rend_bomba en <= 100)%Z;
  w_rend_motor : (50 <= rend_motor en <= 100)%Z;
  w_horas : 1 <= horas_por_dia en <= 24;
  w_tarifa : 0.10 <= tarifa_energia en <= 2.00
}.

(** The values the widgets hold when the page opens (their [value]
    arguments, the first option of the select box and of the radio), and the
    same with the second option of the radio. *)
Definition entradas_padrao : Entradas := {|
  fluido_selecionado := "Água a 20°C";
  vazao := 50;
  tipo_calculo_h := "Informar manualmente";
  h_man_informada := 30;
  h_geometrica := 15;
  comp_tub := 100;
  diam_tub := 100;
  rug_tub := 0.15;
  k_total_acessorios := 5;
  rend_bomba := 70;
  rend_motor := 90;
  horas_por_dia := 8;
  tarifa_energia := 0.75
|}.


(** ** Auxiliary notions for the statements *)

(** A third table, with two fluids of equal viscosity and different
    density. *)
Definition tabela_mesma_viscosidade : gmap string Fluido :=
  <[ "A"%string := mkFluido 1000 1e-6 ]> (<[ "B"%string := mkFluido 800 1e-6 ]> ∅).


(** The Reynolds number line 36 computes, as a real number. *)
Definition reynolds_de (velocidade diametro_m nu_f : R) : R :=
  if Rgt_dec nu_f 0 then velocidade * diametro_m / nu_f else 0.

(** Action of a function on a returned value; an exception passes through. *)
Definition aplicar {A B : Type} (g : A -> B) (m : resultado A) : resultado B :=
  match m with
  | Retorna a => Retorna (g a)
  | Levanta e => Levanta e
  end.

(** An energy result with its powers multiplied by [a], its monthly
    consumption by [a * b] and its two costs by [a * b * c]. *)
Definition escalar (a b c : R) (r : Analise) : Analise := {|
  potencia_hidraulica_kW := a * potencia_hidraulica_kW r;
  potencia_eixo_kW := a * potencia_eixo_kW r;
  potencia_eletrica_kW := a * potencia_eletrica_kW r;
  consumo_mensal_kWh := a * b * consumo_mensal_kWh r;
  custo_mensal := a * b * c * custo_mensal r;
  custo_anual := a * b * c * custo_anual r
|}.

(** * Properties *)

(** ** The fluid table *)

Lemma FLUIDOS_lookup_None (k : string) :
  FLUIDOS !! k = None <->
  k <> "Água a 20°C"%string /\ k <> "Etanol a 20°C"%string /\
  k <> "Glicerina a 20°C"%string /\ k <> "Óleo Leve (genérico)"%string.
Proof.
  unfold FLUIDOS. rewrite !lookup_insert_None, lookup_empty.
  intuition congruence.
Qed.

Lemma FLUIDOS_lookup_Some (k : string) (f : Fluido) :
  FLUIDOS !! k = Some f ->
  f = mkFluido 998.2 1.004e-6 \/ f = mkFluido 789.0 1.51e-6 \/
  f = mkFluido 1261.0 1.49e-3 \/ f = mkFluido 880.0 1.5e-5.
Proof.
  unfold FLUIDOS. rewrite !lookup_insert_Some, lookup_empty.
  intuition (subst; auto; discriminate).
Qed.

(** Every fluid of the table has a positive density and viscosity. *)
Lemma FLUIDOS_positivo (k : string) (f : Fluido) :
  FLUIDOS !! k = Some f -> 0 < rho f /\ 0 < nu f.
Proof.
  intros H. apply FLUIDOS_lookup_Some in H.
  destruct H as [-> | [-> | [-> | ->]]]; simpl; split; lra.
Qed.

Lemma subscrito_Some (t : gmap string Fluido) (k : string) (f : Fluido) :
  t !! k = Some f -> subscrito t k = Retorna f.
Proof. unfold subscrito. intros ->. reflexivity. Qed.

(** C4. Subscripting [FLUIDOS] raises [KeyError] exactly for the keys that are
    not among the four of the table; the key "Unknown" raises, and both
    calculation functions then raise the same error whatever their numeric
    arguments; each of the four keys yields its fixed (density, kinematic
    viscosity) pair. *)
Theorem FLUIDOS_lookup :
  (forall k : string,
      subscrito FLUIDOS k = Levanta (KeyError k) <-> FLUIDOS !! k = None) /\
  (forall k : string,
      FLUIDOS !! k = None <->
      k ∉ ["Água a 20°C"; "Etanol a 20°C"; "Glicerina a 20°C";
           "Óleo Leve (genérico)"]%string) /\
  subscrito FLUIDOS "Unknown" = Levanta (KeyError "Unknown") /\
  (forall q d l e k : R,
      calcular_perda_carga FLUIDOS q d l e k "Unknown"
      = Levanta (KeyError "Unknown")) /\
  (forall q h eb em hd c : R,
      calcular_analise_energetica FLUIDOS q h eb em hd c "Unknown"
      = Levanta (KeyError "Unknown")) /\
  subscrito FLUIDOS "Água a 20°C" = Retorna (mkFluido 998.2 1.004e-6) /\
  subscrito FLUIDOS "Etanol a 20°C" = Retorna (mkFluido 789.0 1.51e-6) /\
  subscrito FLUIDOS "Glicerina a 20°C" = Retorna (mkFluido 1261.0 1.49e-3) /\
  subscrito FLUIDOS "Óleo Leve (genérico)" = Retorna (mkFluido 880.0 1.5e-5).
Proof.
  split; [| split; [| repeat split; reflexivity ]].
  - intros k. unfold subscrito. destruct (FLUIDOS !! k); split; congruence.
  - intros k. rewrite FLUIDOS_lookup_None, !not_elem_of_cons.
    split; [ intros (?&?&?&?); repeat split; auto; apply not_elem_of_nil
           | intros (?&?&?&?&_); auto ].
Qed.

(** ** Real-number facts the proofs share *)

Lemma area_positiva (D : R) : D <> 0 -> 0 < PI * D ^ 2 / 4.
Proof.
  intros HD. apply Rdiv_lt_0_compat; [| lra].
  apply Rmult_lt_0_compat; [apply PI_RGT_0 |].
  rewrite <- Rsqr_pow2. apply Rsqr_pos_lt. exact HD.
Qed.

Lemma log10_zero (x : R) : 0 < x -> (log10 x = 0 <-> x = 1).
Proof.
  intros Hx. unfold log10.
  assert (H10 : 0 < ln 10).
  { rewrite <- ln_1. apply ln_increasing; lra. }
  split.
  - intros H. apply ln_inv; [exact Hx | lra |]. rewrite ln_1.
    replace (ln x) with (ln x / ln 10 * ln 10) by (field; lra).
    rewrite H. ring.
  - intros ->. rewrite ln_1. field. lra.
Qed.

(** Dividing a non-negative power by an efficiency in (0, 1] does not
    decrease it. *)
Lemma divide_por_eficiencia (x e : R) :
  0 <= x -> 0 < e -> e <= 1 -> x <= x / e.
Proof.
  intros Hx He1 He2.
  assert (Hy : 0 <= x / e).
  { unfold Rdiv. apply Rmult_le_pos; [exact Hx |].
    left. apply Rinv_0_lt_compat. exact He1. }
  assert (Hxe : x = x / e * e) by (field; lra).
  rewrite Hxe at 1. nra.
Qed.

Lemma potencia_hidraulica_positiva (q rho_f h : R) :
  0 <= q -> 0 <= rho_f -> 0 <= h -> 0 <= q / 3600 * rho_f * 9.81 * h / 1000.
Proof.
  intros Hq Hr Hh.
  assert (H1 : 0 <= q * rho_f) by (apply Rmult_le_pos; assumption).
  assert (H2 : 0 <= q * rho_f * h) by (apply Rmult_le_pos; assumption).
  replace (q / 3600 * rho_f * 9.81 * h / 1000)
    with (q * rho_f * h * (9.81 / 3600 / 1000)) by field.
  apply Rmult_le_pos; [exact H2 | lra].
Qed.

Lemma produto_monotono (q h hd c q' h' hd' c' : R) :
  0 <= q <= q' -> 0 <= h <= h' -> 0 <= hd <= hd' -> 0 <= c <= c' ->
  0 <= q * h * hd * c <= q' * h' * hd' * c'.
Proof.
  intros [Hq Hq'] [Hh Hh'] [Hd Hd'] [Hc Hc'].
  assert (H1 : 0 <= q * h <= q' * h').
  { split; [apply Rmult_le_pos; assumption |].
    apply Rmult_le_compat; assumption. }
  assert (H2 : 0 <= q * h * hd <= q' * h' * hd').
  { split; [apply Rmult_le_pos; tauto |].
    apply Rmult_le_compat; tauto. }
  split; [apply Rmult_le_pos; tauto |].
  apply Rmult_le_compat; tauto.
Qed.

Lemma reynolds_vezes_pi (q d n : R) :
  d <> 0 -> n <> 0 ->
  q / (PI * d ^ 2 / 4) * d / n * PI = 4 * q / (d * n).
Proof.
  intros Hd Hn. pose proof PI_RGT_0. field. repeat split; lra.
Qed.

(** The Reynolds number has the sign of flow times diameter. *)
Lemma reynolds_nao_positivo (q dmm nu_f : R) :
  dmm <> 0 -> 0 < nu_f -> q * dmm <= 0 ->
  q / 3600 / (PI * (dmm / 1000) ^ 2 / 4) * (dmm / 1000) / nu_f <= 0.
Proof.
  intros Hd Hnu Hsinal.
  assert (HD : dmm / 1000 <> 0) by (intros E; apply Hd; lra).
  pose proof (area_positiva _ HD) as Harea.
  set (a := PI * (dmm / 1000) ^ 2 / 4) in *.
  replace (q / 3600 / a * (dmm / 1000) / nu_f)
    with (q * dmm * (/ 3600 / 1000 / a / nu_f)) by (field; lra).
  assert (Hc : 0 < / 3600 / 1000 / a / nu_f).
  { apply Rdiv_lt_0_compat; [| exact Hnu].
    apply Rdiv_lt_0_compat; [lra | exact Harea]. }
  rewrite <- (Rmult_0_l (/ 3600 / 1000 / a / nu_f)).
  apply Rmult_le_compat_r; lra.
Qed.

(** ** The friction factor, regime by regime *)

(** Turbulent branch: the source evaluates the Swamee-Jain expression, and
    raises exactly where that expression has no value. *)
Lemma fator_atrito_turbulento (eps D Re : R) :
  D <> 0 -> Re > 4000 ->
  (0 < argumento_log eps D Re -> argumento_log eps D Re <> 1 ->
   fator_atrito eps D Re = Retorna (swamee_jain eps D Re)) /\
  (0 < argumento_log eps D Re -> argumento_log eps D Re = 1 ->
   fator_atrito eps D Re = Levanta ZeroDivisionError) /\
  (argumento_log eps D Re <= 0 ->
   fator_atrito eps D Re = Levanta ValueError).
Proof.
  intros HD HRe.
  assert (Hpow : Rpower Re 0.9 <> 0).
  { unfold Rpower. pose proof (exp_pos (0.9 * ln Re)). lra. }
  unfold fator_atrito, swamee_jain, argumento_log, py_div, py_pow, py_log10.
  destruct (Rgt_dec Re 4000) as [_ | H]; [| contradiction].
  destruct (Req_dec_T (3.7 * D) 0) as [E | _]; [exfalso; apply HD; lra |].
  cbn [ligar].
  destruct (Req_dec_T (Rpower Re 0.9) 0) as [E | _]; [contradiction |].
  cbn [ligar].
  set (x := eps / (3.7 * D) + 5.74 / Rpower Re 0.9).
  destruct (Rlt_dec 0 x) as [Hx | Hx]; cbn [ligar].
  - destruct (Req_dec_T (log10 x ^ 2) 0) as [E | E].
    + assert (Hl : log10 x = 0).
      { destruct (Req_dec_T (log10 x) 0) as [E0 | E0]; [exact E0 |].
        exfalso. apply (pow_nonzero _ 2) in E0. contradiction. }
      apply log10_zero in Hl; [| exact Hx].
      repeat split; intros; try reflexivity; try contradiction; lra.
    + assert (Hx1 : x <> 1).
      { intros E1. apply E. apply (log10_zero x Hx) in E1. rewrite E1. ring. }
      repeat split; intros; try reflexivity; try contradiction; lra.
  - repeat split; intros; try reflexivity; lra.
Qed.

Lemma fator_atrito_laminar (eps D Re : R) :
  0 < Re -> Re <= 4000 -> fator_atrito eps D Re = Retorna (64 / Re).
Proof.
  intros H0 H1. unfold fator_atrito, py_div.
  destruct (Rgt_dec Re 4000) as [H | _]; [lra |].
  destruct (Rgt_dec Re 0) as [_ | H]; [| lra].
  destruct (Req_dec_T Re 0) as [E | _]; [lra | reflexivity].
Qed.

Lemma fator_atrito_nulo (eps D Re : R) :
  Re <= 0 -> fator_atrito eps D Re = Retorna 0.
Proof.
  intros H0. unfold fator_atrito.
  destruct (Rgt_dec Re 4000) as [H | _]; [lra |].
  destruct (Rgt_dec Re 0) as [H | _]; [lra | reflexivity].
Qed.

(** The five outcomes of the friction factor, which exclude one another. *)
Lemma fator_atrito_casos (eps D Re : R) :
  D <> 0 ->
  (Re > 4000 /\ argumento_log eps D Re <= 0 /\
   fator_atrito eps D Re = Levanta ValueError) \/
  (Re > 4000 /\ argumento_log eps D Re = 1 /\
   fator_atrito eps D Re = Levanta ZeroDivisionError) \/
  (Re > 4000 /\ 0 < argumento_log eps D Re /\ argumento_log eps D Re <> 1 /\
   fator_atrito eps D Re = Retorna (swamee_jain eps D Re) /\
   0 < swamee_jain eps D Re) \/
  (0 < Re /\ Re <= 4000 /\ fator_atrito eps D Re = Retorna (64 / Re)) \/
  (Re <= 0 /\ fator_atrito eps D Re = Retorna 0).
Proof.
  intros HD.
  destruct (Rgt_dec Re 4000) as [HRe | HRe].
  - destruct (fator_atrito_turbulento eps D Re HD HRe) as (Hsj & Hz & Hv).
    destruct (Rle_dec (argumento_log eps D Re) 0) as [Hneg | Hpos].
    + left. auto.
    + assert (Hx : 0 < argumento_log eps D Re) by lra.
      destruct (Req_dec_T (argumento_log eps D Re) 1) as [E1 | N1].
      * right; left. auto.
      * right; right; left. repeat split; auto.
        unfold swamee_jain. apply Rdiv_lt_0_compat; [lra |].
        rewrite <- Rsqr_pow2. apply Rsqr_pos_lt.
        intros E. apply N1. apply (log10_zero _ Hx). exact E.
  - destruct (Rgt_dec Re 0) as [H0 | H0].
    + right; right; right; left.
      repeat split; [lra | lra | apply fator_atrito_laminar; lra].
    + right; right; right; right.
      split; [lra | apply fator_atrito_nulo; lra].
Qed.

(** With a roughness that is not negative the logarithm has a positive
    argument. *)
Lemma argumento_log_positivo (eps D Re : R) :
  0 <= eps -> 0 < D -> 0 < argumento_log eps D Re.
Proof.
  intros He HD. unfold argumento_log.
  assert (H1 : 0 <= eps / (3.7 * D)).
  { apply Rmult_le_pos; [exact He |].
    left. apply Rinv_0_lt_compat. lra. }
  assert (H2 : 0 < 5.74 / Rpower Re 0.9).
  { apply Rdiv_lt_0_compat; [lra | apply exp_pos]. }
  lra.
Qed.

(** ** Squares, Reynolds number *)

Lemma DBL_MAX_limites : 1e6 <= DBL_MAX < 1e309.
Proof. unfold DBL_MAX. lra. Qed.

Lemma py_quadrado_retorna (x : R) :
  x ^ 2 <= DBL_MAX -> py_quadrado x = Retorna (x ^ 2).
Proof.
  intros H. unfold py_quadrado.
  destruct (Rgt_dec (x ^ 2) DBL_MAX) as [Hgt | _]; [lra | reflexivity].
Qed.


Lemma numero_reynolds_retorna (v D nu_f : R) :
  numero_reynolds v D nu_f = Retorna (reynolds_de v D nu_f).
Proof.
  unfold numero_reynolds, reynolds_de, py_div.
  destruct (Rgt_dec nu_f 0) as [Hn | Hn]; [| reflexivity].
  destruct (Req_dec_T nu_f 0) as [E | _]; [lra | reflexivity].
Qed.

Lemma reynolds_de_positivo (v D nu_f : R) :
  0 < nu_f -> reynolds_de v D nu_f = v * D / nu_f.
Proof.
  intros Hnu. unfold reynolds_de.
  destruct (Rgt_dec nu_f 0) as [_ | H]; [reflexivity | lra].
Qed.

Lemma velocidade_vezes_pi (q d : R) :
  d <> 0 -> q / (PI * d ^ 2 / 4) * PI = 4 * q / d ^ 2.
Proof.
  intros Hd. pose proof PI_RGT_0. field. split; lra.
Qed.

(** In a pipe of 100 mm a flow of at most 100 m3/h, in either direction,
    has a velocity below 4 m/s: both squares are far inside the range of
    the floats. *)
Lemma quadrados_no_intervalo (q : R) :
  -100 <= q <= 100 ->
  (100 / 1000) ^ 2 <= DBL_MAX /\
  (q / 3600 / (PI * (100 / 1000) ^ 2 / 4)) ^ 2 <= DBL_MAX.
Proof.
  intros Hq. pose proof DBL_MAX_limites as HM.
  split; [lra |].
  pose proof PI2_3_2 as Hpi3. pose proof PI_4 as Hpi4.
  pose proof (velocidade_vezes_pi (q / 3600) (100 / 1000) ltac:(lra)) as Hv.
  set (v := q / 3600 / (PI * (100 / 1000) ^ 2 / 4)) in *.
  assert (Hc : -12 <= v * PI <= 12) by (rewrite Hv; lra).
  assert (Hlim : -4 <= v <= 4) by (split; nra).
  assert (Hv2 : v ^ 2 <= 16) by nra.
  lra.
Qed.


(** ** The two calculations on a key of the table *)

Section ChaveConhecida.

(** The table the functions read, and a key it holds. *)
Context (fluidos : gmap string Fluido) (chave : string) (f : Fluido).
Hypothesis Hchave : fluidos !! chave = Some f.

(** *** Head loss: degenerate diameter *)

Lemma perda_carga_area_nula (q l e k : R) :
  calcular_perda_carga fluidos q 0 l e k chave = Retorna (0, 0).
Proof.
  unfold calcular_perda_carga.
  rewrite (subscrito_Some _ _ _ Hchave). cbn [ligar].
  rewrite py_quadrado_retorna.
  - cbn [ligar].
    destruct (Req_dec_T (PI * (0 / 1000) ^ 2 / 4) 0) as [_ | Hne].
    + reflexivity.
    + exfalso. apply Hne. field.
  - pose proof DBL_MAX_limites.
    replace ((0 / 1000) ^ 2) with 0 by field. lra.
Qed.

(** Past the zero-area test: the square of the diameter, the friction
    factor of the Reynolds number, the square of the velocity, in the order
    in which the source can raise; the divisions by the area, by the
    viscosity and by the diameter succeed. *)
Lemma perda_carga_desdobra_geral (q dmm l e k : R) :
  dmm <> 0 ->
  calcular_perda_carga fluidos q dmm l e k chave
  = (_ <-- py_quadrado (dmm / 1000) ;;
     fator <-- fator_atrito (e / 1000) (dmm / 1000)
                 (reynolds_de (q / 3600 / (PI * (dmm / 1000) ^ 2 / 4))
                    (dmm / 1000) (nu f)) ;;
     v2 <-- py_quadrado (q / 3600 / (PI * (dmm / 1000) ^ 2 / 4)) ;;
     Retorna (fator * (l / (dmm / 1000)) * (v2 / (2 * 9.81)),
              k * (v2 / (2 * 9.81)))).
Proof.
  intros Hd.
  assert (HD : dmm / 1000 <> 0) by (intros E; apply Hd; lra).
  pose proof (area_positiva _ HD) as Harea.
  unfold calcular_perda_carga.
  rewrite (subscrito_Some _ _ _ Hchave). cbn [ligar].
  unfold py_quadrado at 1 4.
  destruct (Rgt_dec ((dmm / 1000) ^ 2) DBL_MAX) as [Hov | _];
    cbn [ligar]; [reflexivity |].
  destruct (Req_dec_T (PI * (dmm / 1000) ^ 2 / 4) 0) as [E | _]; [lra |].
  unfold py_div at 1.
  destruct (Req_dec_T (PI * (dmm / 1000) ^ 2 / 4) 0) as [E | _]; [lra |].
  cbn [ligar]. rewrite numero_reynolds_retorna. cbn [ligar].
  destruct (fator_atrito _ _ _) as [fa | ex]; cbn [ligar]; [| reflexivity].
  unfold py_div.
  destruct (Req_dec_T (dmm / 1000) 0) as [E | _]; [contradiction |].
  cbn [ligar].
  destruct (py_quadrado _) as [v2 | ex]; reflexivity.
Qed.

(** The same when no square leaves the range of the floats. *)
Lemma perda_carga_sem_overflow (q dmm l e k : R) :
  dmm <> 0 ->
  (dmm / 1000) ^ 2 <= DBL_MAX ->
  (q / 3600 / (PI * (dmm / 1000) ^ 2 / 4)) ^ 2 <= DBL_MAX ->
  calcular_perda_carga fluidos q dmm l e k chave
  = (fator <-- fator_atrito (e / 1000) (dmm / 1000)
                 (reynolds_de (q / 3600 / (PI * (dmm / 1000) ^ 2 / 4))
                    (dmm / 1000) (nu f)) ;;
     Retorna (fator * (l / (dmm / 1000))
                * ((q / 3600 / (PI * (dmm / 1000) ^ 2 / 4)) ^ 2 / (2 * 9.81)),
              k * ((q / 3600 / (PI * (dmm / 1000) ^ 2 / 4)) ^ 2 / (2 * 9.81)))).
Proof.
  intros Hd HD2 Hv2.
  rewrite (perda_carga_desdobra_geral q dmm l e k Hd).
  rewrite (py_quadrado_retorna _ HD2), (py_quadrado_retorna _ Hv2).
  cbn [ligar]. reflexivity.
Qed.

(** C5. With a diameter of zero the cross-sectional area is zero and
    [calcular_perda_carga] returns (0, 0) for every flow, length, roughness
    and loss coefficient, given a key of the table: no exception is raised,
    in particular no division by zero. *)
Theorem perda_carga_diametro_zero
    (vazao_m3h diametro_mm comprimento_m rugosidade_mm k_total : R) :
  diametro_mm = 0 ->
  calcular_perda_carga fluidos vazao_m3h diametro_mm comprimento_m
    rugosidade_mm k_total chave
  = Retorna (0, 0).
Proof.
  intros ->. apply perda_carga_area_nula.
Qed.

(** *** Energy and cost *)

(** The energy analysis once the fluid is known: both guarded divisions
    succeed, so the function always returns, with these fields. *)
Lemma analise_energetica_retorna (q h eb em hd c : R) :
  exists r : Analise,
    calcular_analise_energetica fluidos q h eb em hd c chave = Retorna r /\
    potencia_hidraulica_kW r = q / 3600 * rho f * 9.81 * h / 1000 /\
    (eb > 0 -> potencia_eixo_kW r = q / 3600 * rho f * 9.81 * h / eb / 1000) /\
    (~ eb > 0 -> potencia_eixo_kW r = 0) /\
    (em > 0 -> potencia_eletrica_kW r = potencia_eixo_kW r * 1000 / em / 1000) /\
    (~ em > 0 -> potencia_eletrica_kW r = 0) /\
    consumo_mensal_kWh r = potencia_eletrica_kW r * hd * 30 /\
    custo_mensal r = consumo_mensal_kWh r * c /\
    custo_anual r = custo_mensal r * 12.
Proof.
  unfold calcular_analise_energetica, py_div.
  rewrite (subscrito_Some _ _ _ Hchave). simpl.
  destruct (Rgt_dec eb 0) as [Hb | Hb]; simpl;
    [ destruct (Req_dec_T eb 0) as [E | _]; [lra |]; simpl |];
    (destruct (Rgt_dec em 0) as [Hm | Hm]; simpl;
     [ destruct (Req_dec_T em 0) as [E | _]; [lra |]; simpl |]);
    (eexists; split; [reflexivity |]; simpl; repeat split; intros;
     try reflexivity; try contradiction; try lra; field; lra).
Qed.

(** The same facts with each stage expressed from the previous one, in kW. *)
Lemma analise_energetica_estagios (q h eb em hd c : R) :
  exists r : Analise,
    calcular_analise_energetica fluidos q h eb em hd c chave = Retorna r /\
    potencia_hidraulica_kW r = q / 3600 * rho f * 9.81 * h / 1000 /\
    (eb > 0 -> potencia_eixo_kW r = potencia_hidraulica_kW r / eb) /\
    (~ eb > 0 -> potencia_eixo_kW r = 0) /\
    (em > 0 -> potencia_eletrica_kW r = potencia_eixo_kW r / em) /\
    (~ em > 0 -> potencia_eletrica_kW r = 0) /\
    custo_anual r = potencia_eletrica_kW r * hd * 30 * c * 12.
Proof.
  destruct (analise_energetica_retorna q h eb em hd c)
    as (r & Hr & Hh & Hb1 & Hb0 & Hm1 & Hm0 & Hcm & Hc & Hca).
  exists r. split; [exact Hr |]. split; [exact Hh |].
  split; [intros Hb; rewrite (Hb1 Hb), Hh; field; lra |].
  split; [exact Hb0 |].
  split; [intros Hm; rewrite (Hm1 Hm); field; lra |].
  split; [exact Hm0 |].
  rewrite Hca, Hc, Hcm. reflexivity.
Qed.

(** C6. Given a key of the table, [calcular_analise_energetica] returns for
    every numeric input (neither guarded division can raise): the shaft power
    is the hydraulic power divided by the pump efficiency when that is
    positive and 0 otherwise, the electrical power is the shaft power divided
    by the motor efficiency when that is positive and 0 otherwise; with a pump
    or motor efficiency of 0 the electrical power, the monthly consumption and
    both costs are 0. *)
Theorem analise_eficiencia_zero (q h eb em hd c : R) :
  exists r : Analise,
    calcular_analise_energetica fluidos q h eb em hd c chave = Retorna r /\
    (eb > 0 -> potencia_eixo_kW r = potencia_hidraulica_kW r / eb) /\
    (~ eb > 0 -> potencia_eixo_kW r = 0) /\
    (em > 0 -> potencia_eletrica_kW r = potencia_eixo_kW r / em) /\
    (~ em > 0 -> potencia_eletrica_kW r = 0) /\
    (eb = 0 \/ em = 0 ->
     potencia_eletrica_kW r = 0 /\ consumo_mensal_kWh r = 0 /\
     custo_mensal r = 0 /\ custo_anual r = 0).
Proof.
  destruct (analise_energetica_retorna q h eb em hd c)
    as (r & Hr & _ & _ & _ & _ & _ & Hcm & Hc & Hca).
  destruct (analise_energetica_estagios q h eb em hd c)
    as (r' & Hr' & _ & Hb1 & Hb0 & Hm1 & Hm0 & _).
  assert (r' = r) as -> by congruence.
  exists r. split; [exact Hr |].
  split; [exact Hb1 |]. split; [exact Hb0 |].
  split; [exact Hm1 |]. split; [exact Hm0 |].
  intros Hz.
  assert (He : potencia_eletrica_kW r = 0).
  { destruct (Rgt_dec em 0) as [Hm | Hm]; [| exact (Hm0 Hm)].
    destruct Hz as [-> | ->]; [| lra].
    rewrite (Hm1 Hm), Hb0 by lra. field. lra. }
  rewrite Hca, Hc, Hcm, He. repeat split; ring.
Qed.

(** With the fluid and the efficiencies fixed, the annual cost is a constant
    times flow, head, hours per day and tariff; the constant is not negative
    when the density is not. *)
Lemma custo_anual_produto (eb em : R) :
  exists k : R,
    (0 <= rho f -> 0 <= k) /\
    forall q h hd c : R,
    exists r : Analise,
      calcular_analise_energetica fluidos q h eb em hd c chave = Retorna r /\
      custo_anual r = k * (q * h * hd * c).
Proof.
  destruct (Rgt_dec eb 0) as [Hb | Hb]; [destruct (Rgt_dec em 0) as [Hm | Hm] |].
  - exists (rho f * (9.81 / 3600 / 1000 * 30 * 12 / eb / em)). split.
    + intros Hrho. apply Rmult_le_pos; [exact Hrho |].
      left. repeat apply Rdiv_lt_0_compat; lra.
    + intros q h hd c.
      destruct (analise_energetica_estagios q h eb em hd c)
        as (r & Hr & Hh & Hb1 & _ & Hm1 & _ & Hca).
      exists r. split; [exact Hr |].
      rewrite Hca, (Hm1 Hm), (Hb1 Hb), Hh. field. lra.
  - exists 0. split; [lra |]. intros q h hd c.
    destruct (analise_energetica_estagios q h eb em hd c)
      as (r & Hr & _ & _ & _ & _ & Hm0 & Hca).
    exists r. split; [exact Hr |]. rewrite Hca, (Hm0 Hm). ring.
  - exists 0. split; [lra |]. intros q h hd c.
    destruct (analise_energetica_estagios q h eb em hd c)
      as (r & Hr & _ & _ & Hb0 & Hm1 & Hm0 & Hca).
    exists r. split; [exact Hr |]. rewrite Hca.
    destruct (Rgt_dec em 0) as [Hm | Hm].
    + rewrite (Hm1 Hm), (Hb0 Hb). field. lra.
    + rewrite (Hm0 Hm). ring.
Qed.

(** *** Head loss: the exceptions it can raise *)

Lemma perda_carga_excecoes_possiveis (q dmm l e k : R) (ex : excecao) :
  calcular_perda_carga fluidos q dmm l e k chave = Levanta ex ->
  ex = OverflowError \/ ex = ValueError \/ ex = ZeroDivisionError.
Proof.
  destruct (Req_dec_T dmm 0) as [-> | Hd].
  - rewrite perda_carga_area_nula. discriminate.
  - rewrite (perda_carga_desdobra_geral q dmm l e k Hd).
    assert (HD : dmm / 1000 <> 0) by (intros E; apply Hd; lra).
    unfold py_quadrado.
    destruct (Rgt_dec ((dmm / 1000) ^ 2) DBL_MAX) as [_ | _]; cbn [ligar];
      [intros H; injection H as <-; auto |].
    destruct (fator_atrito_casos (e / 1000) (dmm / 1000)
                (reynolds_de (q / 3600 / (PI * (dmm / 1000) ^ 2 / 4))
                   (dmm / 1000) (nu f)) HD)
      as [(_ & _ & ->) | [(_ & _ & ->) | [(_ & _ & _ & -> & _)
         | [(_ & _ & ->) | (_ & ->)]]]];
      cbn [ligar];
      try (intros H; injection H as <-; auto);
      (destruct (Rgt_dec _ DBL_MAX) as [_ | _]; cbn [ligar];
       [intros H; injection H as <-; auto | discriminate]).
Qed.

(** With an efficiency of zero the electrical power, the consumption and
    the costs are zero. *)
Lemma analise_energetica_zeros (q h eb em hd c : R) :
  eb = 0 \/ em = 0 ->
  exists r : Analise,
    calcular_analise_energetica fluidos q h eb em hd c chave = Retorna r /\
    potencia_eletrica_kW r = 0 /\ consumo_mensal_kWh r = 0 /\
    custo_mensal r = 0 /\ custo_anual r = 0.
Proof.
  intros Hz.
  destruct (analise_energetica_retorna q h eb em hd c)
    as (r & Hr & _ & _ & Hb0 & Hm1 & Hm0 & Hcm & Hc & Hca).
  exists r. split; [exact Hr |].
  assert (He : potencia_eletrica_kW r = 0).
  { destruct (Rgt_dec em 0) as [Hm | Hm]; [| exact (Hm0 Hm)].
    destruct Hz as [-> | ->]; [| lra].
    rewrite (Hm1 Hm), Hb0 by lra. field. lra. }
  rewrite Hca, Hc, Hcm, He. repeat split; ring.
Qed.

(** *** Head loss with a positive viscosity *)

Section ViscosidadePositiva.

Hypothesis Hnu : 0 < nu f.

(** Past the zero-area test, with the Reynolds number v D / nu. *)
Lemma perda_carga_desdobra (q dmm l e k : R) :
  dmm <> 0 ->
  calcular_perda_carga fluidos q dmm l e k chave
  = (_ <-- py_quadrado (dmm / 1000) ;;
     fator <-- fator_atrito (e / 1000) (dmm / 1000)
                 (q / 3600 / (PI * (dmm / 1000) ^ 2 / 4) * (dmm / 1000) / nu f) ;;
     v2 <-- py_quadrado (q / 3600 / (PI * (dmm / 1000) ^ 2 / 4)) ;;
     Retorna (fator * (l / (dmm / 1000)) * (v2 / (2 * 9.81)),
              k * (v2 / (2 * 9.81)))).
Proof.
  intros Hd. rewrite (perda_carga_desdobra_geral q dmm l e k Hd).
  rewrite (reynolds_de_positivo _ _ _ Hnu). reflexivity.
Qed.

(** Below the turbulent threshold, and with both squares in the range of
    the floats, nothing can raise. *)
Lemma perda_carga_retorna (q dmm l e k : R) :
  (dmm / 1000) ^ 2 <= DBL_MAX ->
  (q / 3600 / (PI * (dmm / 1000) ^ 2 / 4)) ^ 2 <= DBL_MAX ->
  q / 3600 / (PI * (dmm / 1000) ^ 2 / 4) * (dmm / 1000) / nu f <= 4000 ->
  exists hf hk : R,
    calcular_perda_carga fluidos q dmm l e k chave = Retorna (hf, hk).
Proof.
  intros HD2 Hv2 HRe.
  destruct (Req_dec_T dmm 0) as [-> | Hd].
  - exists 0, 0. apply perda_carga_area_nula.
  - rewrite (perda_carga_desdobra q dmm l e k Hd).
    rewrite (py_quadrado_retorna _ HD2), (py_quadrado_retorna _ Hv2).
    cbn [ligar].
    set (Re := q / 3600 / (PI * (dmm / 1000) ^ 2 / 4) * (dmm / 1000) / nu f) in *.
    destruct (Rgt_dec Re 0) as [Hpos | Hneg].
    + rewrite fator_atrito_laminar by lra. cbn [ligar]. eexists _, _. reflexivity.
    + rewrite fator_atrito_nulo by lra. cbn [ligar]. eexists _, _. reflexivity.
Qed.

(** C1. For a key of the table with positive viscosity and a positive
    diameter, [calcular_perda_carga] applies the Darcy-Weisbach terms to the
    friction factor of the Reynolds number Re = v D / nu (between the square
    of the diameter and the square of the velocity, each of which raises
    [OverflowError] out of the range of the floats), and that factor is
    the Swamee-Jain expression when Re > 4000 (the source raises exactly
    where the expression has no value: logarithm of a non-positive number,
    or logarithm equal to zero; with a non-negative roughness the logarithm's
    argument is positive), 64 / Re when 0 < Re <= 4000, and 0 when Re <= 0. *)
Theorem fator_atrito_por_regime (q dmm l e k : R) :
  0 < dmm ->
  let D := dmm / 1000 in
  let eps := e / 1000 in
  let v := q / 3600 / (PI * D ^ 2 / 4) in
  let Re := v * D / nu f in
  calcular_perda_carga fluidos q dmm l e k chave
  = (_ <-- py_quadrado D ;;
     fator <-- fator_atrito eps D Re ;;
     v2 <-- py_quadrado v ;;
     Retorna (fator * (l / D) * (v2 / (2 * 9.81)), k * (v2 / (2 * 9.81)))) /\
  (D ^ 2 <= DBL_MAX -> v ^ 2 <= DBL_MAX ->
   calcular_perda_carga fluidos q dmm l e k chave
   = (fator <-- fator_atrito eps D Re ;;
      Retorna (fator * (l / D) * (v ^ 2 / (2 * 9.81)),
               k * (v ^ 2 / (2 * 9.81))))) /\
  (Re > 4000 -> 0 < argumento_log eps D Re -> argumento_log eps D Re <> 1 ->
   fator_atrito eps D Re = Retorna (swamee_jain eps D Re)) /\
  (Re > 4000 -> 0 < argumento_log eps D Re -> argumento_log eps D Re = 1 ->
   fator_atrito eps D Re = Levanta ZeroDivisionError) /\
  (Re > 4000 -> argumento_log eps D Re <= 0 ->
   fator_atrito eps D Re = Levanta ValueError) /\
  (Re > 4000 -> 0 <= e -> 0 < argumento_log eps D Re) /\
  (0 < Re -> Re <= 4000 -> fator_atrito eps D Re = Retorna (64 / Re)) /\
  (Re <= 0 -> fator_atrito eps D Re = Retorna 0).
Proof.
  intros Hd D eps v Re.
  assert (HD : D <> 0) by (unfold D; lra).
  split; [apply perda_carga_desdobra; lra |].
  split.
  { intros HD2 Hv2. rewrite (perda_carga_desdobra q dmm l e k) by lra.
    fold D eps v Re.
    rewrite (py_quadrado_retorna _ HD2), (py_quadrado_retorna _ Hv2).
    reflexivity. }
  split; [intros HRe; apply (fator_atrito_turbulento eps D Re HD HRe) |].
  split; [intros HRe; apply (fator_atrito_turbulento eps D Re HD HRe) |].
  split; [intros HRe; apply (fator_atrito_turbulento eps D Re HD HRe) |].
  split; [| split; [apply fator_atrito_laminar | apply fator_atrito_nulo]].
  intros _ He. apply argumento_log_positivo; [unfold eps; lra | unfold D; lra].
Qed.


End ViscosidadePositiva.

(** *** Inputs outside their physical range *)

(** C3 (as amended). Neither function validates its numeric arguments.
    Given a key of the table, [calcular_analise_energetica] returns a result
    for every numeric input, with zero electrical power, consumption and
    costs when an efficiency is zero; [calcular_perda_carga] returns (0, 0)
    on a diameter of zero, raises nothing but [OverflowError], [ValueError]
    and [ZeroDivisionError], and (the viscosity being positive) returns a
    pair for every input whose squares stay in the range of the floats and
    whose Reynolds number is at most 4000, in particular whenever flow and
    diameter do not have the same sign, whatever the length, roughness and
    loss coefficient. *)
Theorem entradas_nao_validadas :
  (forall q h eb em hd c : R,
      exists r : Analise,
        calcular_analise_energetica fluidos q h eb em hd c chave = Retorna r /\
        (eb = 0 \/ em = 0 ->
         potencia_eletrica_kW r = 0 /\ consumo_mensal_kWh r = 0 /\
         custo_mensal r = 0 /\ custo_anual r = 0)) /\
  (forall q l e k : R,
      calcular_perda_carga fluidos q 0 l e k chave = Retorna (0, 0)) /\
  (forall (q dmm l e k : R) (ex : excecao),
      calcular_perda_carga fluidos q dmm l e k chave = Levanta ex ->
      ex = OverflowError \/ ex = ValueError \/ ex = ZeroDivisionError) /\
  (0 < nu f ->
   forall q dmm l e k : R,
     (dmm / 1000) ^ 2 <= DBL_MAX ->
     (q / 3600 / (PI * (dmm / 1000) ^ 2 / 4)) ^ 2 <= DBL_MAX ->
     q / 3600 / (PI * (dmm / 1000) ^ 2 / 4) * (dmm / 1000) / nu f <= 4000 ->
     exists hf hk : R,
       calcular_perda_carga fluidos q dmm l e k chave = Retorna (hf, hk)) /\
  (0 < nu f ->
   forall q dmm l e k : R,
     (dmm / 1000) ^ 2 <= DBL_MAX ->
     (q / 3600 / (PI * (dmm / 1000) ^ 2 / 4)) ^ 2 <= DBL_MAX ->
     q * dmm <= 0 ->
     exists hf hk : R,
       calcular_perda_carga fluidos q dmm l e k chave = Retorna (hf, hk)).
Proof.
  split; [| split; [| split; [| split]]].
  - intros q h eb em hd c.
    destruct (analise_energetica_retorna q h eb em hd c) as (r & Hr & _).
    exists r. split; [exact Hr |]. intros Hz.
    destruct (analise_energetica_zeros q h eb em hd c Hz) as (r' & Hr' & Hzeros).
    assert (r' = r) as -> by congruence. exact Hzeros.
  - apply perda_carga_area_nula.
  - apply perda_carga_excecoes_possiveis.
  - intros Hnu q dmm l e k. apply perda_carga_retorna. exact Hnu.
  - intros Hnu q dmm l e k HD2 Hv2 Hsinal.
    destruct (Req_dec_T dmm 0) as [-> | Hd].
    + exists 0, 0. apply perda_carga_area_nula.
    + apply (perda_carga_retorna Hnu); [assumption.. |].
      pose proof (reynolds_nao_positivo q dmm (nu f) Hd Hnu Hsinal). lra.
Qed.

End ChaveConhecida.

(** *** The same, on the module's table *)

Lemma perda_carga_diametro_zero_agua :
  calcular_perda_carga FLUIDOS 50 0 100 0.15 5 "Água a 20°C" = Retorna (0, 0).
Proof.
  apply (perda_carga_diametro_zero FLUIDOS "Água a 20°C"
           (mkFluido 998.2 1.004e-6) eq_refl 50 0 100 0.15 5).
  reflexivity.
Defined.

Lemma analise_eficiencia_zero_agua :
  exists r : Analise,
    calcular_analise_energetica FLUIDOS 50 30 0 0.9 8 0.75 "Água a 20°C"
    = Retorna r /\
    potencia_eletrica_kW r = 0 /\ custo_anual r = 0.
Proof.
  destruct (analise_eficiencia_zero FLUIDOS "Água a 20°C"
              (mkFluido 998.2 1.004e-6) eq_refl 50 30 0 0.9 8 0.75)
    as (r & Hr & _ & _ & _ & _ & Hz).
  exists r. split; [exact Hr |].
  destruct (Hz (or_introl eq_refl)) as (He & _ & _ & Hc).
  split; assumption.
Defined.

(** The scenario of the specification: water, 50 m3/h against 30 m, pump
    efficiency 0.70 and motor efficiency 0.90, 8 h a day at 0.75 per kWh. *)
Example analise_cenario_agua :
  exists r : Analise,
    calcular_analise_energetica FLUIDOS 50 30 0.7 0.9 8 0.75 "Água a 20°C"
    = Retorna r /\
    4.08 < potencia_hidraulica_kW r < 4.09 /\
    5.82 < potencia_eixo_kW r < 5.83 /\
    6.47 < potencia_eletrica_kW r < 6.48 /\
    13988 < custo_anual r < 13990.
Proof.
  destruct (analise_energetica_estagios FLUIDOS "Água a 20°C"
              (mkFluido 998.2 1.004e-6) eq_refl 50 30 0.7 0.9 8 0.75)
    as (r & Hr & Hh & Hb & _ & Hm & _ & Hca).
  exists r. split; [exact Hr |].
  rewrite Hca, Hm, Hb, Hh by lra. simpl. lra.
Qed.

(** The scenario of the specification for the head loss: water, 50 m3/h in
    a pipe of 100 mm with a roughness of 0.15 mm.  From 3 < PI <= 4 the
    Reynolds number lies between 138 000 and 185 000, hence the flow is
    turbulent, and the argument of the logarithm lies strictly between 0
    and 1. *)
Lemma cenario_agua_turbulento :
  let Re := 50 / 3600 / (PI * (100 / 1000) ^ 2 / 4) * (100 / 1000) / 1.004e-6 in
  138000 < Re < 185000 /\
  0 < argumento_log (0.15 / 1000) (100 / 1000) Re < 1.
Proof.
  intros Re.
  pose proof PI2_3_2 as Hpi3. pose proof PI_4 as Hpi4.
  assert (Hpi : 0 < PI) by lra.
  assert (HRe : Re * PI = 4 * (50 / 3600) / (100 / 1000 * 1.004e-6)).
  { unfold Re. apply reynolds_vezes_pi; lra. }
  assert (Hlo : 138000 < Re) by nra.
  assert (Hhi : Re < 185000) by nra.
  split; [lra |].
  assert (Hraiz : 6 < Rpower Re 0.9).
  { apply Rlt_le_trans with (Rpower Re (/ 2)).
    - rewrite Rpower_sqrt by lra.
      rewrite <- (sqrt_square 6) by lra.
      apply sqrt_lt_1_alt. lra.
    - apply Rle_Rpower; lra. }
  assert (Hb : 0 < 5.74 / Rpower Re 0.9 < 0.99).
  { split; [apply Rdiv_lt_0_compat; lra |].
    apply (Rmult_lt_reg_r (Rpower Re 0.9)); [lra |].
    replace (5.74 / Rpower Re 0.9 * Rpower Re 0.9) with 5.74 by (field; lra).
    lra. }
  unfold argumento_log. lra.
Qed.

Lemma fator_atrito_por_regime_agua :
  let D := 100 / 1000 in
  let eps := 0.15 / 1000 in
  let v := 50 / 3600 / (PI * D ^ 2 / 4) in
  let Re := v * D / 1.004e-6 in
  Re > 4000 /\
  fator_atrito eps D Re = Retorna (swamee_jain eps D Re) /\
  calcular_perda_carga FLUIDOS 50 100 100 0.15 5 "Água a 20°C"
  = Retorna (swamee_jain eps D Re * (100 / D) * (v ^ 2 / (2 * 9.81)),
             5 * (v ^ 2 / (2 * 9.81))).
Proof.
  intros D eps v Re.
  destruct cenario_agua_turbulento as [HRe Harg].
  destruct (quadrados_no_intervalo 50 ltac:(lra)) as [HD2 Hv2].
  destruct (fator_atrito_por_regime FLUIDOS "Água a 20°C"
              (mkFluido 998.2 1.004e-6) eq_refl ltac:(simpl; lra)
              50 100 100 0.15 5 ltac:(lra))
    as (_ & Hperda & Hsj & _).
  cbn [nu] in Hperda, Hsj. fold D eps v Re in Hperda, Hsj.
  assert (Hturb : Re > 4000) by (subst Re v D; lra).
  assert (Hfa : fator_atrito eps D Re = Retorna (swamee_jain eps D Re)).
  { apply Hsj; [exact Hturb | subst Re v eps D; lra..]. }
  split; [exact Hturb |]. split; [exact Hfa |].
  rewrite Hperda, Hfa by assumption. reflexivity.
Defined.

(** The same pipe with glycerin: the Reynolds number lies between 90 and
    125, the flow is laminar and the friction factor is 64 / Re. *)
Example cenario_glicerina_laminar :
  let D := 100 / 1000 in
  let v := 50 / 3600 / (PI * D ^ 2 / 4) in
  let Re := v * D / 1.49e-3 in
  90 < Re < 125 /\
  calcular_perda_carga FLUIDOS 50 100 100 0.15 5 "Glicerina a 20°C"
  = Retorna (64 / Re * (100 / D) * (v ^ 2 / (2 * 9.81)),
             5 * (v ^ 2 / (2 * 9.81))).
Proof.
  intros D v Re.
  pose proof PI2_3_2 as Hpi3. pose proof PI_4 as Hpi4.
  assert (HRe : Re * PI = 4 * (50 / 3600) / (100 / 1000 * 1.49e-3)).
  { subst Re v D. apply reynolds_vezes_pi; lra. }
  assert (Hlim : 90 < Re < 125) by (split; nra).
  split; [exact Hlim |].
  destruct (quadrados_no_intervalo 50 ltac:(lra)) as [HD2 Hv2].
  rewrite (perda_carga_desdobra FLUIDOS "Glicerina a 20°C"
             (mkFluido 1261.0 1.49e-3) eq_refl ltac:(simpl; lra)
             50 100 100 0.15 5 ltac:(lra)).
  rewrite (py_quadrado_retorna _ HD2), (py_quadrado_retorna _ Hv2).
  cbn [nu ligar]. fold D v Re.
  rewrite fator_atrito_laminar by lra. reflexivity.
Qed.



Lemma entradas_nao_validadas_agua :
  (exists r : Analise,
      calcular_analise_energetica FLUIDOS (-50) (-30) 1.5 (-0.9) 30 (-0.75)
        "Água a 20°C" = Retorna r) /\
  (exists hf hk : R,
      calcular_perda_carga FLUIDOS (-50) 100 (-100) (-0.15) (-5) "Água a 20°C"
      = Retorna (hf, hk)).
Proof.
  destruct (entradas_nao_validadas FLUIDOS "Água a 20°C"
              (mkFluido 998.2 1.004e-6) eq_refl) as (He & _ & _ & _ & Hp).
  destruct (quadrados_no_intervalo (-50) ltac:(lra)) as [HD2 Hv2].
  split.
  - destruct (He (-50) (-30) 1.5 (-0.9) 30 (-0.75)) as (r & Hr & _).
    exists r. exact Hr.
  - apply Hp; [simpl; lra | assumption | assumption | lra].
Defined.

(** C3, as first stated, fails: a negative flow, an efficiency above 1 with
    30 hours a day, and a negative flow with a negative length are all
    computed through; the powers are not the zeros of the two degenerate
    cases. *)
Lemma entradas_invalidas_calculadas :
  (exists r : Analise,
      calcular_analise_energetica FLUIDOS (-50) 30 0.7 0.9 8 0.75 "Água a 20°C"
      = Retorna r /\
      potencia_eletrica_kW r < 0) /\
  (exists r : Analise,
      calcular_analise_energetica FLUIDOS 50 30 1.5 0.9 30 0.75 "Água a 20°C"
      = Retorna r /\
      0 < potencia_eletrica_kW r) /\
  (exists hf hk : R,
      calcular_perda_carga FLUIDOS (-50) 100 (-100) 0.15 5 "Água a 20°C"
      = Retorna (hf, hk)).
Proof.
  split; [| split].
  - destruct (analise_energetica_estagios FLUIDOS "Água a 20°C"
                (mkFluido 998.2 1.004e-6) eq_refl (-50) 30 0.7 0.9 8 0.75)
      as (r & Hr & Hh & Hb & _ & Hm & _).
    exists r. split; [exact Hr |].
    rewrite Hm, Hb, Hh by lra. simpl. lra.
  - destruct (analise_energetica_estagios FLUIDOS "Água a 20°C"
                (mkFluido 998.2 1.004e-6) eq_refl 50 30 1.5 0.9 30 0.75)
      as (r & Hr & Hh & Hb & _ & Hm & _).
    exists r. split; [exact Hr |].
    rewrite Hm, Hb, Hh by lra. simpl. lra.
  - destruct (quadrados_no_intervalo (-50) ltac:(lra)) as [HD2 Hv2].
    apply (perda_carga_retorna FLUIDOS "Água a 20°C" (mkFluido 998.2 1.004e-6));
      [reflexivity | simpl; lra | assumption | assumption |].
    assert (H : (-50) * 100 <= 0) by lra.
    pose proof (reynolds_nao_positivo (-50) 100 1.004e-6
                  ltac:(lra) ltac:(lra) H).
    simpl nu. lra.
Qed.

(** ** Energy: what the result depends on *)

(** C10. [calcular_analise_energetica] reads only the density of the selected
    fluid: two keys of the table whose entries have the same density give the
    same result, whatever their viscosities. *)
Theorem analise_depende_so_da_densidade
    (fluidos : gmap string Fluido) (chave1 chave2 : string) (f1 f2 : Fluido)
    (q h eb em hd c : R) :
  fluidos !! chave1 = Some f1 ->
  fluidos !! chave2 = Some f2 ->
  rho f1 = rho f2 ->
  calcular_analise_energetica fluidos q h eb em hd c chave1
  = calcular_analise_energetica fluidos q h eb em hd c chave2.
Proof.
  intros H1 H2 Hrho. unfold calcular_analise_energetica.
  rewrite (subscrito_Some _ _ _ H1), (subscrito_Some _ _ _ H2). simpl.
  rewrite Hrho. reflexivity.
Qed.

Lemma analise_depende_so_da_densidade_AB :
  calcular_analise_energetica tabela_mesma_densidade 50 30 0.7 0.9 8 0.75 "A"
  = calcular_analise_energetica tabela_mesma_densidade 50 30 0.7 0.9 8 0.75 "B".
Proof.
  apply (analise_depende_so_da_densidade tabela_mesma_densidade "A" "B"
           (mkFluido 1000 1e-6) (mkFluido 1000 2e-3));
    reflexivity.
Defined.

(** ** Energy: the three power stages *)

(** C2 (as amended). For a key of [FLUIDOS], positive flow and head, and pump
    and motor efficiencies in (0, 1], [calcular_analise_energetica] returns a
    result with 0 <= hydraulic power <= shaft power <= electrical power. *)
Theorem potencias_ordenadas
    (chave : string) (f : Fluido) (q h eb em hd c : R) :
  FLUIDOS !! chave = Some f ->
  0 < q -> 0 < h ->
  0 < eb -> eb <= 1 -> 0 < em -> em <= 1 ->
  0 <= hd -> hd <= 24 -> 0 <= c ->
  exists r : Analise,
    calcular_analise_energetica FLUIDOS q h eb em hd c chave = Retorna r /\
    0 <= potencia_hidraulica_kW r /\
    potencia_hidraulica_kW r <= potencia_eixo_kW r /\
    potencia_eixo_kW r <= potencia_eletrica_kW r.
Proof.
  intros Hk Hq Hh Hb0 Hb1 Hm0 Hm1 _ _ _.
  destruct (FLUIDOS_positivo _ _ Hk) as [Hrho _].
  destruct (analise_energetica_estagios FLUIDOS chave f Hk q h eb em hd c)
    as (r & Hr & Hh' & Hb & _ & Hm & _ & _).
  assert (Hpos : 0 <= potencia_hidraulica_kW r).
  { rewrite Hh'. apply potencia_hidraulica_positiva; lra. }
  assert (Hhe : potencia_hidraulica_kW r <= potencia_eixo_kW r).
  { rewrite (Hb Hb0). apply divide_por_eficiencia; assumption. }
  exists r. split; [exact Hr |]. split; [exact Hpos |]. split; [exact Hhe |].
  rewrite (Hm Hm0). apply divide_por_eficiencia; [lra | assumption..].
Qed.

Lemma potencias_ordenadas_agua :
  exists r : Analise,
    calcular_analise_energetica FLUIDOS 50 30 0.7 0.9 8 0.75 "Água a 20°C"
    = Retorna r /\
    0 <= potencia_hidraulica_kW r /\
    potencia_hidraulica_kW r <= potencia_eixo_kW r /\
    potencia_eixo_kW r <= potencia_eletrica_kW r.
Proof.
  apply (potencias_ordenadas "Água a 20°C" (mkFluido 998.2 1.004e-6));
    [reflexivity | lra..].
Defined.

(** C2, as first stated, fails: a pump efficiency of 0 is at most 1, and
    there the shaft power is 0 while the hydraulic power is positive. *)
Lemma potencias_desordenadas_eficiencia_zero :
  (0 <= 1 /\ 0.9 <= 1 /\ 50 > 0 /\ 30 > 0 /\ 0.75 >= 0 /\ 0 <= 8 <= 24) /\
  exists r : Analise,
    calcular_analise_energetica FLUIDOS 50 30 0 0.9 8 0.75 "Água a 20°C"
    = Retorna r /\
    potencia_eixo_kW r < potencia_hidraulica_kW r.
Proof.
  split; [lra |].
  destruct (analise_energetica_estagios FLUIDOS "Água a 20°C"
              (mkFluido 998.2 1.004e-6) eq_refl 50 30 0 0.9 8 0.75)
    as (r & Hr & Hh & _ & Hb0 & _).
  exists r. split; [exact Hr |].
  rewrite Hh, Hb0 by lra. simpl. lra.
Qed.

(** ** Annual cost as a function of the operating point *)

(** C7. For a key of [FLUIDOS] and fixed efficiencies, the annual cost
    returned by [calcular_analise_energetica] does not decrease when one of
    flow, head, hours per day or tariff grows and the other three, all
    non-negative, stay the same. *)
Theorem custo_anual_monotono
    (chave : string) (f : Fluido) (eb em q h hd c x : R) :
  FLUIDOS !! chave = Some f ->
  0 <= q -> 0 <= h -> 0 <= hd -> 0 <= c ->
  exists r : Analise,
    calcular_analise_energetica FLUIDOS q h eb em hd c chave = Retorna r /\
    (q <= x ->
     exists r' : Analise,
       calcular_analise_energetica FLUIDOS x h eb em hd c chave = Retorna r' /\
       custo_anual r <= custo_anual r') /\
    (h <= x ->
     exists r' : Analise,
       calcular_analise_energetica FLUIDOS q x eb em hd c chave = Retorna r' /\
       custo_anual r <= custo_anual r') /\
    (hd <= x ->
     exists r' : Analise,
       calcular_analise_energetica FLUIDOS q h eb em x c chave = Retorna r' /\
       custo_anual r <= custo_anual r') /\
    (c <= x ->
     exists r' : Analise,
       calcular_analise_energetica FLUIDOS q h eb em hd x chave = Retorna r' /\
       custo_anual r <= custo_anual r').
Proof.
  intros Hk Hq Hh Hd Hc.
  destruct (FLUIDOS_positivo _ _ Hk) as [Hrho _].
  destruct (custo_anual_produto FLUIDOS chave f Hk eb em) as (k & Hk0 & Hcusto).
  assert (Hkpos : 0 <= k) by (apply Hk0; lra).
  destruct (Hcusto q h hd c) as (r & Hr & Hca).
  exists r. split; [exact Hr |].
  repeat split; intros Hx.
  - destruct (Hcusto x h hd c) as (r' & Hr' & Hca').
    exists r'. split; [exact Hr' |]. rewrite Hca, Hca'.
    apply Rmult_le_compat_l; [exact Hkpos |].
    apply (produto_monotono q h hd c x h hd c); lra.
  - destruct (Hcusto q x hd c) as (r' & Hr' & Hca').
    exists r'. split; [exact Hr' |]. rewrite Hca, Hca'.
    apply Rmult_le_compat_l; [exact Hkpos |].
    apply (produto_monotono q h hd c q x hd c); lra.
  - destruct (Hcusto q h x c) as (r' & Hr' & Hca').
    exists r'. split; [exact Hr' |]. rewrite Hca, Hca'.
    apply Rmult_le_compat_l; [exact Hkpos |].
    apply (produto_monotono q h hd c q h x c); lra.
  - destruct (Hcusto q h hd x) as (r' & Hr' & Hca').
    exists r'. split; [exact Hr' |]. rewrite Hca, Hca'.
    apply Rmult_le_compat_l; [exact Hkpos |].
    apply (produto_monotono q h hd c q h hd x); lra.
Qed.

Lemma custo_anual_monotono_agua :
  exists r r' : Analise,
    calcular_analise_energetica FLUIDOS 50 30 0.7 0.9 8 0.75 "Água a 20°C"
    = Retorna r /\
    calcular_analise_energetica FLUIDOS 60 30 0.7 0.9 8 0.75 "Água a 20°C"
    = Retorna r' /\
    custo_anual r <= custo_anual r'.
Proof.
  destruct (custo_anual_monotono "Água a 20°C" (mkFluido 998.2 1.004e-6)
              0.7 0.9 50 30 8 0.75 60 eq_refl
              ltac:(lra) ltac:(lra) ltac:(lra) ltac:(lra))
    as (r & Hr & Hq & _).
  destruct (Hq ltac:(lra)) as (r' & Hr' & Hle).
  exists r, r'. repeat split; assumption.
Defined.

(** ** Suggestions *)

(** Membership of a fixed message, by the eight outcomes of the three tests. *)
Ltac pertence_por_casos eb em ca :=
  unfold gerar_sugestoes, append;
  destruct (Rlt_dec eb 0.6), (Rlt_dec em 0.85), (Rgt_dec ca 5000);
  simpl; rewrite ?elem_of_cons, elem_of_nil;
  (split; [intros H; try assumption; exfalso; intuition discriminate
          | intros; auto]).

(** C8. [gerar_sugestoes] returns, for every input, a non-empty list that
    ends with the maintenance reminder: the pump advice (present iff the pump
    efficiency is below 0.6), then the motor advice (iff the motor efficiency
    is below 0.85), then the frequency-inverter advice (iff the annual cost
    exceeds 5000), then the reminder; for 0.5, 0.7 and 6000 the list has
    exactly the four entries. *)
Theorem gerar_sugestoes_ordem (eb em ca : R) :
  gerar_sugestoes eb em ca <> [] /\
  last (gerar_sugestoes eb em ca) = Some MSG_MANUTENCAO /\
  (exists bomba motor inversor : list string,
      gerar_sugestoes eb em ca = bomba ++ motor ++ inversor ++ [MSG_MANUTENCAO] /\
      (eb < 0.6 -> bomba = [MSG_BOMBA]) /\ (~ eb < 0.6 -> bomba = []) /\
      (em < 0.85 -> motor = [MSG_MOTOR]) /\ (~ em < 0.85 -> motor = []) /\
      (ca > 5000 -> inversor = [MSG_INVERSOR]) /\ (~ ca > 5000 -> inversor = [])) /\
  (MSG_BOMBA ∈ gerar_sugestoes eb em ca <-> eb < 0.6) /\
  (MSG_MOTOR ∈ gerar_sugestoes eb em ca <-> em < 0.85) /\
  (MSG_INVERSOR ∈ gerar_sugestoes eb em ca <-> ca > 5000) /\
  gerar_sugestoes 0.5 0.7 6000
  = [MSG_BOMBA; MSG_MOTOR; MSG_INVERSOR; MSG_MANUTENCAO] /\
  length (gerar_sugestoes 0.5 0.7 6000) = 4%nat.
Proof.
  assert (Hquatro : gerar_sugestoes 0.5 0.7 6000
                    = [MSG_BOMBA; MSG_MOTOR; MSG_INVERSOR; MSG_MANUTENCAO]).
  { unfold gerar_sugestoes, append.
    destruct (Rlt_dec 0.5 0.6); [| lra].
    destruct (Rlt_dec 0.7 0.85); [| lra].
    destruct (Rgt_dec 6000 5000); [| lra].
    reflexivity. }
  repeat match goal with |- _ /\ _ => split end;
    try (rewrite Hquatro; reflexivity); try exact Hquatro.
  - unfold gerar_sugestoes, append.
    destruct (Rlt_dec eb 0.6), (Rlt_dec em 0.85), (Rgt_dec ca 5000);
      discriminate.
  - unfold gerar_sugestoes, append.
    destruct (Rlt_dec eb 0.6), (Rlt_dec em 0.85), (Rgt_dec ca 5000);
      reflexivity.
  - exists (if Rlt_dec eb 0.6 then [MSG_BOMBA] else []),
           (if Rlt_dec em 0.85 then [MSG_MOTOR] else []),
           (if Rgt_dec ca 5000 then [MSG_INVERSOR] else []).
    unfold gerar_sugestoes, append.
    destruct (Rlt_dec eb 0.6), (Rlt_dec em 0.85), (Rgt_dec ca 5000);
      repeat split; intros; try reflexivity; contradiction.
  - pertence_por_casos eb em ca.
  - pertence_por_casos eb em ca.
  - pertence_por_casos eb em ca.
Qed.

(** * Further properties of the calculation functions *)

(** ** Head loss: when it raises and what it returns *)

Section PerdaDeCarga.

Context (fluidos : gmap string Fluido) (chave : string) (f : Fluido).
Hypothesis Hchave : fluidos !! chave = Some f.

(** A key of the table never gives a [KeyError]. *)
Lemma perda_carga_sem_KeyError (q dmm l e k : R) (c : string) :
  calcular_perda_carga fluidos q dmm l e k chave <> Levanta (KeyError c).
Proof.
  intros H.
  destruct (perda_carga_excecoes_possiveis fluidos chave f Hchave
              q dmm l e k _ H) as [E | [E | E]]; discriminate.
Qed.






(** X5. At a Reynolds number of at most 4000 the roughness plays no part:
    two calls that differ only in the roughness give the same result. *)
Theorem perda_carga_laminar_sem_rugosidade (q dmm l e1 e2 k : R) :
  reynolds_de (q / 3600 / (PI * (dmm / 1000) ^ 2 / 4)) (dmm / 1000) (nu f)
  <= 4000 ->
  calcular_perda_carga fluidos q dmm l e1 k chave
  = calcular_perda_carga fluidos q dmm l e2 k chave.
Proof.
  intros HRe.
  destruct (Req_dec_T dmm 0) as [-> | Hd].
  - rewrite !(perda_carga_area_nula fluidos chave f Hchave). reflexivity.
  - rewrite !(perda_carga_desdobra_geral fluidos chave f Hchave q dmm l _ k Hd).
    set (Re := reynolds_de _ _ _) in *.
    destruct (Rgt_dec Re 0) as [Hpos | Hneg].
    + rewrite !fator_atrito_laminar by lra. reflexivity.
    + rewrite !fator_atrito_nulo by lra. reflexivity.
Qed.

End PerdaDeCarga.




Lemma perda_carga_laminar_sem_rugosidade_glicerina :
  calcular_perda_carga FLUIDOS 50 100 100 0.15 5 "Glicerina a 20°C"
  = calcular_perda_carga FLUIDOS 50 100 100 0.001 5 "Glicerina a 20°C".
Proof.
  apply (perda_carga_laminar_sem_rugosidade FLUIDOS "Glicerina a 20°C"
           (mkFluido 1261.0 1.49e-3) eq_refl).
  cbn [nu]. rewrite reynolds_de_positivo by lra.
  pose proof (proj1 cenario_glicerina_laminar) as Hlam.
  cbv zeta in Hlam. lra.
Defined.

(** ** Head loss: how it depends on its arguments *)

(** X4. The principal loss is proportional to the length and the localized
    loss to the loss coefficient: multiplying the length by [a] and the
    coefficient by [b] multiplies the two returned losses by [a] and [b],
    and changes nothing to whether, and which, exception is raised. *)
Theorem perda_carga_linear
    (fluidos : gmap string Fluido) (chave : string) (q dmm l e k a b : R) :
  calcular_perda_carga fluidos q dmm (a * l) e (b * k) chave
  = aplicar (fun p : R * R => (a * fst p, b * snd p))
      (calcular_perda_carga fluidos q dmm l e k chave).
Proof.
  destruct (fluidos !! chave) as [f |] eqn:Hchave.
  - destruct (Req_dec_T dmm 0) as [-> | Hd].
    + rewrite !(perda_carga_area_nula fluidos chave f Hchave). simpl.
      f_equal. f_equal; ring.
    + rewrite !(perda_carga_desdobra_geral fluidos chave f Hchave q dmm _ e _ Hd).
      destruct (py_quadrado (dmm / 1000)) as [d2 | ex]; cbn [ligar aplicar];
        [| reflexivity].
      destruct (fator_atrito _ _ _) as [fa | ex]; cbn [ligar aplicar];
        [| reflexivity].
      destruct (py_quadrado _) as [v2 | ex]; cbn [ligar aplicar fst snd];
        [| reflexivity].
      f_equal. f_equal; unfold Rdiv; ring.
  - unfold calcular_perda_carga, subscrito. rewrite Hchave. reflexivity.
Qed.

(** X6. [calcular_perda_carga] reads the density of the fluid and never uses
    it: two keys of the table whose entries have the same viscosity give the
    same result, whatever their densities. *)
Theorem perda_carga_depende_so_da_viscosidade
    (fluidos : gmap string Fluido) (chave1 chave2 : string) (f1 f2 : Fluido)
    (q dmm l e k : R) :
  fluidos !! chave1 = Some f1 ->
  fluidos !! chave2 = Some f2 ->
  nu f1 = nu f2 ->
  calcular_perda_carga fluidos q dmm l e k chave1
  = calcular_perda_carga fluidos q dmm l e k chave2.
Proof.
  intros H1 H2 Hnu.
  destruct (Req_dec_T dmm 0) as [-> | Hd].
  - rewrite (perda_carga_area_nula fluidos chave1 f1 H1),
      (perda_carga_area_nula fluidos chave2 f2 H2). reflexivity.
  - rewrite (perda_carga_desdobra_geral fluidos chave1 f1 H1 q dmm l e k Hd),
      (perda_carga_desdobra_geral fluidos chave2 f2 H2 q dmm l e k Hd), Hnu.
    reflexivity.
Qed.

Lemma perda_carga_depende_so_da_viscosidade_AB :
  calcular_perda_carga tabela_mesma_viscosidade 50 100 100 0.15 5 "A"
  = calcular_perda_carga tabela_mesma_viscosidade 50 100 100 0.15 5 "B".
Proof.
  apply (perda_carga_depende_so_da_viscosidade tabela_mesma_viscosidade
           "A" "B" (mkFluido 1000 1e-6) (mkFluido 800 1e-6));
    reflexivity.
Defined.

(** ** Missing keys *)

(** X7. On a key that the table does not hold, both calculation functions
    raise [KeyError] with that key, whatever their numeric arguments, and
    they raise it on no other occasion; [calcular_analise_energetica] raises
    nothing else. *)
Theorem chave_ausente
    (fluidos : gmap string Fluido) (chave : string) :
  (forall q dmm l e k : R,
      calcular_perda_carga fluidos q dmm l e k chave = Levanta (KeyError chave)
      <-> fluidos !! chave = None) /\
  (forall q h eb em hd c : R,
      calcular_analise_energetica fluidos q h eb em hd c chave
      = Levanta (KeyError chave)
      <-> fluidos !! chave = None) /\
  (forall (q h eb em hd c : R) (ex : excecao),
      calcular_analise_energetica fluidos q h eb em hd c chave = Levanta ex ->
      ex = KeyError chave).
Proof.
  destruct (fluidos !! chave) as [f |] eqn:Hchave.
  - split; [| split].
    + intros q dmm l e k. split; [| discriminate].
      intros H. exfalso.
      exact (perda_carga_sem_KeyError fluidos chave f Hchave q dmm l e k chave H).
    + intros q h eb em hd c. split; [| discriminate].
      destruct (analise_energetica_retorna fluidos chave f Hchave q h eb em hd c)
        as (r & -> & _).
      discriminate.
    + intros q h eb em hd c ex.
      destruct (analise_energetica_retorna fluidos chave f Hchave q h eb em hd c)
        as (r & -> & _).
      discriminate.
  - unfold calcular_perda_carga, calcular_analise_energetica, subscrito.
    rewrite Hchave. cbn [ligar].
    split; [| split]; intros; try tauto; congruence.
Qed.

(** ** Energy: scaling and efficiencies *)

(** X8. Multiplying the flow by [a], the hours per day by [b] and the tariff
    by [c] multiplies the three powers by [a], the monthly consumption by
    [a * b] and the two costs by [a * b * c]; in particular the powers do
    not depend on hours and tariff, and the consumption not on the tariff. *)
Theorem analise_energetica_proporcional
    (fluidos : gmap string Fluido) (chave : string)
    (q h eb em hd t a b c : R) :
  calcular_analise_energetica fluidos (a * q) h eb em (b * hd) (c * t) chave
  = aplicar (escalar a b c)
      (calcular_analise_energetica fluidos q h eb em hd t chave).
Proof.
  unfold calcular_analise_energetica, subscrito.
  destruct (fluidos !! chave) as [f |]; cbn [ligar]; [| reflexivity].
  unfold py_div.
  destruct (Rgt_dec eb 0) as [Hb | Hb];
    [ destruct (Req_dec_T eb 0) as [E | _]; [lra |] |];
    cbn [ligar];
    (destruct (Rgt_dec em 0) as [Hm | Hm];
     [ destruct (Req_dec_T em 0) as [E | _]; [lra |] |]);
    cbn [ligar aplicar]; unfold escalar; cbn;
    f_equal; f_equal; unfold Rdiv; ring.
Qed.

(** X9. For a key of [FLUIDOS], non-negative flow, head, hours and tariff,
    and positive efficiencies, the electrical power is the hydraulic power
    divided by the product of the two efficiencies, and raising either
    efficiency raises neither the electrical power nor the annual cost. *)
Theorem custo_decresce_com_eficiencia
    (chave : string) (f : Fluido) (q h eb em eb' em' hd c : R) :
  FLUIDOS !! chave = Some f ->
  0 <= q -> 0 <= h -> 0 <= hd -> 0 <= c ->
  0 < eb -> eb <= eb' -> 0 < em -> em <= em' ->
  exists r r' : Analise,
    calcular_analise_energetica FLUIDOS q h eb em hd c chave = Retorna r /\
    calcular_analise_energetica FLUIDOS q h eb' em' hd c chave = Retorna r' /\
    potencia_eletrica_kW r = potencia_hidraulica_kW r / (eb * em) /\
    potencia_eletrica_kW r' <= potencia_eletrica_kW r /\
    custo_anual r' <= custo_anual r.
Proof.
  intros Hk Hq Hh Hd Hc Hb Hbb Hm Hmm.
  destruct (FLUIDOS_positivo _ _ Hk) as [Hrho _].
  destruct (analise_energetica_estagios FLUIDOS chave f Hk q h eb em hd c)
    as (r & Hr & Hhid & Hb1 & _ & Hm1 & _ & Hca).
  destruct (analise_energetica_estagios FLUIDOS chave f Hk q h eb' em' hd c)
    as (r' & Hr' & Hhid' & Hb1' & _ & Hm1' & _ & Hca').
  exists r, r'. split; [exact Hr |]. split; [exact Hr' |].
  pose proof (potencia_hidraulica_positiva q (rho f) h Hq ltac:(lra) Hh) as Hpos.
  rewrite <- Hhid in Hpos.
  assert (Hel : potencia_eletrica_kW r = potencia_hidraulica_kW r / (eb * em)).
  { rewrite (Hm1 Hm), (Hb1 Hb). field. lra. }
  assert (Hel' : potencia_eletrica_kW r'
                 = potencia_hidraulica_kW r / (eb' * em')).
  { rewrite Hm1', Hb1', Hhid', Hhid by lra. field. lra. }
  assert (Hprod : 0 < eb * em <= eb' * em').
  { split; [apply Rmult_lt_0_compat; assumption |].
    apply Rmult_le_compat; lra. }
  assert (Hle : potencia_eletrica_kW r' <= potencia_eletrica_kW r).
  { rewrite Hel, Hel'. unfold Rdiv.
    apply Rmult_le_compat_l; [exact Hpos |].
    apply Rinv_le_contravar; tauto. }
  split; [exact Hel |]. split; [exact Hle |].
  rewrite Hca, Hca'.
  assert (Hfat : 0 <= hd * 30 * c * 12).
  { repeat apply Rmult_le_pos; lra. }
  replace (potencia_eletrica_kW r' * hd * 30 * c * 12)
    with (potencia_eletrica_kW r' * (hd * 30 * c * 12)) by ring.
  replace (potencia_eletrica_kW r * hd * 30 * c * 12)
    with (potencia_eletrica_kW r * (hd * 30 * c * 12)) by ring.
  apply Rmult_le_compat_r; assumption.
Qed.

Lemma custo_decresce_com_eficiencia_agua :
  exists r r' : Analise,
    calcular_analise_energetica FLUIDOS 50 30 0.7 0.9 8 0.75 "Água a 20°C"
    = Retorna r /\
    calcular_analise_energetica FLUIDOS 50 30 0.8 0.95 8 0.75 "Água a 20°C"
    = Retorna r' /\
    custo_anual r' <= custo_anual r.
Proof.
  destruct (custo_decresce_com_eficiencia "Água a 20°C"
              (mkFluido 998.2 1.004e-6) 50 30 0.7 0.9 0.8 0.95 8 0.75 eq_refl
              ltac:(lra) ltac:(lra) ltac:(lra) ltac:(lra)
              ltac:(lra) ltac:(lra) ltac:(lra) ltac:(lra))
    as (r & r' & Hr & Hr' & _ & _ & Hle).
  exists r, r'. repeat split; assumption.
Defined.

(** ** Suggestions: size of the list *)

(** X10. The list of suggestions never repeats a message and has between
    one and four entries: one exactly when no threshold is crossed, four
    exactly when all three are. *)
Theorem gerar_sugestoes_tamanho (eb em ca : R) :
  NoDup (gerar_sugestoes eb em ca) /\
  (1 <= length (gerar_sugestoes eb em ca) <= 4)%nat /\
  (length (gerar_sugestoes eb em ca) = 1%nat <->
   0.6 <= eb /\ 0.85 <= em /\ ca <= 5000) /\
  (length (gerar_sugestoes eb em ca) = 4%nat <->
   eb < 0.6 /\ em < 0.85 /\ ca > 5000).
Proof.
  unfold gerar_sugestoes, append.
  destruct (Rlt_dec eb 0.6), (Rlt_dec em 0.85), (Rgt_dec ca 5000);
    cbn [app length];
    (split; [apply (bool_decide_unpack _); vm_compute; exact I |]);
    (split; [lia |]);
    (split; (split; [intros H; try discriminate; lra | intros H; try reflexivity; lra])).
Qed.

(** * The application script *)

(** ** What the script computes once the head is known *)

Lemma compreensao_retorna {A B : Type} (g : A -> resultado B) (g' : A -> B)
    (l : list A) :
  (forall x : A, g x = Retorna (g' x)) ->
  compreensao g l = Retorna (map g' l).
Proof.
  intros Hg. induction l as [| x l IH]; [reflexivity |].
  cbn [compreensao map]. rewrite Hg, IH. reflexivity.
Qed.

(** A slider between 10 and 100 percent gives an efficiency in [0.1, 1]. *)
Lemma rendimento_no_intervalo (n : Z) :
  (10 <= n <= 100)%Z -> 0.1 <= IZR n / 100 <= 1.
Proof.
  intros [H1 H2]. apply IZR_le in H1, H2. lra.
Qed.

(** The three powers in order, for flow and head that are not negative. *)
Lemma potencias_em_ordem
    (chave : string) (f : Fluido) (q h eb em hd c : R) :
  FLUIDOS !! chave = Some f ->
  0 <= q -> 0 <= h -> 0 < eb -> eb <= 1 -> 0 < em -> em <= 1 ->
  exists r : Analise,
    calcular_analise_energetica FLUIDOS q h eb em hd c chave = Retorna r /\
    0 <= potencia_hidraulica_kW r /\
    potencia_hidraulica_kW r <= potencia_eixo_kW r /\
    potencia_eixo_kW r <= potencia_eletrica_kW r /\
    custo_anual r = potencia_eletrica_kW r * hd * 30 * c * 12 /\
    (0 < q -> 0 < h -> 0 < potencia_hidraulica_kW r).
Proof.
  intros Hk Hq Hh Hb0 Hb1 Hm0 Hm1.
  destruct (FLUIDOS_positivo _ _ Hk) as [Hrho _].
  destruct (analise_energetica_estagios FLUIDOS chave f Hk q h eb em hd c)
    as (r & Hr & Hh' & Hb & _ & Hm & _ & Hca).
  assert (Hpos : 0 <= potencia_hidraulica_kW r).
  { rewrite Hh'. apply potencia_hidraulica_positiva; lra. }
  assert (Hhe : potencia_hidraulica_kW r <= potencia_eixo_kW r).
  { rewrite (Hb Hb0). apply divide_por_eficiencia; assumption. }
  exists r. split; [exact Hr |]. split; [exact Hpos |]. split; [exact Hhe |].
  split; [rewrite (Hm Hm0); apply divide_por_eficiencia; [lra | assumption..] |].
  split; [exact Hca |].
  intros Hq' Hh''. rewrite Hh'.
  replace (q / 3600 * rho f * 9.81 * h / 1000)
    with (q * rho f * h * (9.81 / 3600 / 1000)) by field.
  apply Rmult_lt_0_compat; [| lra].
  apply Rmult_lt_0_compat; [| lra].
  apply Rmult_lt_0_compat; lra.
Qed.

Section Script.

Context (en : Entradas) (f : Fluido).
Hypothesis Hfluido : FLUIDOS !! fluido_selecionado en = Some f.

(** After the head, nothing in the script can raise: the analysis, the 24
    costs of the chart and the suggestions are all computed. *)
Lemma script_apos_altura (hm : R) :
  calcular_h_man_total en = Retorna hm ->
  exists (r : Analise) (k : R),
    calcular_analise_energetica FLUIDOS (vazao en) hm
      (IZR (rend_bomba en) / 100) (IZR (rend_motor en) / 100)
      (horas_por_dia en) (tarifa_energia en) (fluido_selecionado en)
    = Retorna r /\
    0 <= k /\
    custo_anual r = k * (vazao en * hm * horas_por_dia en * tarifa_energia en) /\
    script en
    = Retorna {|
        h_man_total := hm;
        resultados := r;
        custos_range :=
          map (fun h : Z => k * (vazao en * hm * IZR h * tarifa_energia en))
            horas_range;
        sugestoes :=
          gerar_sugestoes (IZR (rend_bomba en) / 100)
            (IZR (rend_motor en) / 100) (custo_anual r)
      |}.
Proof.
  intros Hhm.
  destruct (FLUIDOS_positivo _ _ Hfluido) as [Hrho _].
  destruct (custo_anual_produto FLUIDOS (fluido_selecionado en) f Hfluido
              (IZR (rend_bomba en) / 100) (IZR (rend_motor en) / 100))
    as (k & Hk0 & Hcusto).
  destruct (Hcusto (vazao en) hm (horas_por_dia en) (tarifa_energia en))
    as (r & Hr & Hca).
  exists r, k. split; [exact Hr |]. split; [apply Hk0; lra |].
  split; [exact Hca |].
  unfold script. rewrite Hhm. cbn [ligar]. rewrite Hr. cbn [ligar].
  rewrite (compreensao_retorna _
             (fun h : Z => k * (vazao en * hm * IZR h * tarifa_energia en))).
  - reflexivity.
  - intros h.
    destruct (Hcusto (vazao en) hm (IZR h) (tarifa_energia en))
      as (r' & Hr' & Hca').
    rewrite Hr'. cbn [ligar]. rewrite Hca'. reflexivity.
Qed.


Lemma altura_informada :
  tipo_calculo_h en = "Informar manualmente"%string ->
  calcular_h_man_total en = Retorna (h_man_informada en).
Proof.
  intros Htipo. unfold calcular_h_man_total. rewrite Htipo. reflexivity.
Qed.


End Script.

(** ** The script on the values the widgets allow *)

Lemma entradas_padrao_validas : entradas_dos_widgets entradas_padrao.
Proof.
  constructor; cbn; try lra; try lia.
  - eexists. reflexivity.
  - left. reflexivity.
Qed.


Lemma gerar_sugestoes_ultima (eb em ca : R) :
  last (gerar_sugestoes eb em ca) = Some MSG_MANUTENCAO.
Proof.
  unfold gerar_sugestoes, append. apply last_snoc.
Qed.

(** X11. With the head typed in, on values the widgets allow, the script
    raises nothing: it returns the typed head, three powers with
    0 < hydraulic <= shaft <= electrical, a positive annual cost, the 24
    costs of the chart and a list of suggestions that ends with the
    maintenance reminder. *)
Theorem script_altura_informada (en : Entradas) :
  entradas_dos_widgets en ->
  tipo_calculo_h en = "Informar manualmente"%string ->
  exists p : Painel,
    script en = Retorna p /\
    h_man_total p = h_man_informada en /\
    0 < potencia_hidraulica_kW (resultados p) /\
    potencia_hidraulica_kW (resultados p) <= potencia_eixo_kW (resultados p) /\
    potencia_eixo_kW (resultados p) <= potencia_eletrica_kW (resultados p) /\
    0 < custo_anual (resultados p) /\
    length (custos_range p) = 24%nat /\
    last (sugestoes p) = Some MSG_MANUTENCAO.
Proof.
  intros Hw Htipo.
  destruct (w_fluido en Hw) as [f Hf].
  pose proof (rendimento_no_intervalo _ (w_rend_bomba en Hw)) as Hb.
  assert (Hm : 0.1 <= IZR (rend_motor en) / 100 <= 1).
  { apply rendimento_no_intervalo. pose proof (w_rend_motor en Hw). lia. }
  pose proof (w_vazao en Hw) as Hq. pose proof (w_h_man en Hw) as Hh.
  pose proof (w_horas en Hw) as Hhd. pose proof (w_tarifa en Hw) as Ht.
  destruct (script_apos_altura en f Hf _ (altura_informada en Htipo))
    as (r & k & Hr & _ & _ & Hscript).
  destruct (potencias_em_ordem (fluido_selecionado en) f (vazao en)
              (h_man_informada en) (IZR (rend_bomba en) / 100)
              (IZR (rend_motor en) / 100) (horas_por_dia en)
              (tarifa_energia en) Hf
              ltac:(lra) ltac:(lra) ltac:(lra) ltac:(lra) ltac:(lra) ltac:(lra))
    as (r' & Hr' & H0 & H1 & H2 & Hca & Hpos).
  assert (r' = r) as -> by congruence.
  specialize (Hpos ltac:(lra) ltac:(lra)).
  eexists. split; [exact Hscript |]. cbn.
  split; [reflexivity |]. split; [exact Hpos |].
  split; [exact H1 |]. split; [exact H2 |].
  split; [| split; [rewrite length_map; reflexivity | apply gerar_sugestoes_ultima]].
  rewrite Hca.
  assert (He : 0 < potencia_eletrica_kW r) by lra.
  repeat apply Rmult_lt_0_compat; lra.
Qed.

Lemma script_altura_informada_padrao :
  exists p : Painel,
    script entradas_padrao = Retorna p /\
    h_man_total p = h_man_informada entradas_padrao /\
    0 < custo_anual (resultados p) /\
    length (custos_range p) = 24%nat.
Proof.
  destruct (script_altura_informada entradas_padrao
              entradas_padrao_validas eq_refl)
    as (p & Hp & Hh & _ & _ & _ & Hc & Hl & _).
  exists p. repeat split; assumption.
Defined.

(** X12. Whenever the head is obtained and is not negative, the 24 costs of
    the chart are the cost of one daily hour times 1, 2, ..., 24, in that
    order, hence never decreasing, and the annual cost shown is that unit
    cost times the hours per day. *)
Theorem script_grafico (en : Entradas) (hm : R) :
  entradas_dos_widgets en ->
  calcular_h_man_total en = Retorna hm ->
  0 <= hm ->
  exists (p : Painel) (c1 : R),
    script en = Retorna p /\
    0 <= c1 /\
    custos_range p = map (fun h : Z => IZR h * c1) horas_range /\
    custo_anual (resultados p) = horas_por_dia en * c1 /\
    Sorted Rle (custos_range p).
Proof.
  intros Hw Hhm Hpos.
  destruct (w_fluido en Hw) as [f Hf].
  pose proof (w_vazao en Hw) as Hq. pose proof (w_tarifa en Hw) as Ht.
  destruct (script_apos_altura en f Hf hm Hhm)
    as (r & k & Hr & Hk & Hca & Hscript).
  set (c1 := k * (vazao en * hm * tarifa_energia en)).
  assert (Hc1 : 0 <= c1).
  { unfold c1. repeat apply Rmult_le_pos; lra. }
  assert (Hlista : map (fun h : Z => k * (vazao en * hm * IZR h * tarifa_energia en))
                     horas_range
                   = map (fun h : Z => IZR h * c1) horas_range).
  { apply map_ext. intros h. unfold c1. ring. }
  eexists _, c1. split; [exact Hscript |]. cbn [custos_range resultados].
  split; [exact Hc1 |]. split; [exact Hlista |].
  split; [rewrite Hca; unfold c1; ring |].
  rewrite Hlista. change horas_range with (seqZ 1 24).
  cbv [seqZ seq Z.to_nat Pos.to_nat Pos.iter_op Nat.add fmap list_fmap Z.of_nat
       Pos.of_succ_nat Pos.succ Z.add Pos.add map].
  repeat (constructor; [| try (constructor; lra)]).
  constructor.
Qed.

Lemma script_grafico_padrao :
  exists (p : Painel) (c1 : R),
    script entradas_padrao = Retorna p /\
    custos_range p = map (fun h : Z => IZR h * c1) horas_range /\
    custo_anual (resultados p) = horas_por_dia entradas_padrao * c1.
Proof.
  destruct (script_grafico entradas_padrao (h_man_informada entradas_padrao)
              entradas_padrao_validas
              (altura_informada entradas_padrao eq_refl)
              ltac:(cbn; lra))
    as (p & c1 & Hp & _ & Hl & Hc & _).
  exists p, c1. repeat split; assumption.
Defined.


